(** * Concept modules of the A5 backend: a shallow embedding

    The backend is a set of "concept" classes (messaging, itemizing,
    tracking, profiling), each owning one document collection, composed
    by the routes of the web server.  This development embeds the concept
    methods and the routes that synchronise them as functions over an
    explicit collection state, and states the properties of the
    specification over them. *)

From Stdlib Require Import ZArith NArith List String Bool Lia.
Import ListNotations.

Set Implicit Arguments.

(** ** Values *)

(** A MongoDB [ObjectId].  [a.toString() !== b.toString()] compares the
    hexadecimal renderings, which is inequality of the identifiers. *)
Definition ObjectId := N.
Bind Scope N_scope with ObjectId.

(** A JavaScript [Date], by its time value in milliseconds; [d1 < d2] on
    dates compares the time values.  The invalid date (time value NaN) is
    not represented. *)
Definition Date := Z.
Bind Scope Z_scope with Date.

(** ** Errors

    The error classes of the concepts.  Every class extends one of the
    kinds of [concepts/errors]; [assert] of the [assert] package throws
    its own [AssertionError], and the [ObjectId] constructor a
    [BSONError] on a string that is no identifier. *)

Inductive ErrorKind := KNotFound | KNotAllowed | KBadValues | KAssertion | KBSON.

Inductive Error :=
| AssertionError
| NotFoundError
| NotAllowedError
| BadValuesError
| ItemCreatorNotMatchError (creator _id : ObjectId)
| InvalidStatusError (status : string)
| GoalExecutorNotMatchError (executor _id : ObjectId)
| UserProfileExistsError (user : ObjectId)
| ProfileDoesNotExistsError (user : ObjectId)
| UserNotSenderError (user _id : ObjectId)
| UserNotMatchError (user _id : ObjectId)
| NotADraftError (_id : ObjectId)
| MessageNotSentError (_id : ObjectId)
| BSONError.

Definition errorKind (e : Error) : ErrorKind :=
  match e with
  | AssertionError => KAssertion
  | NotFoundError => KNotFound
  | BadValuesError => KBadValues
  | BSONError => KBSON
  | _ => KNotAllowed
  end.

Inductive Result (A : Type) :=
| Ok (a : A)
| Throw (e : Error).
Arguments Throw {A} e.

(** ** The document collection *)

Module Doc.

(** Modelled from the spec: the [DocCollection] class of [framework/doc]
    is not among the sources.  The spec describes it as a generic keyed
    collection with create, read-one, read-many with a filter, partial
    update and delete by filter, keyed by a unique identifier assigned at
    creation; every record carries the identifier, a creation timestamp
    and a last-update timestamp, both assigned by the store.

    A collection is the list of its documents in insertion order and the
    next identifier to hand out.  Read-one, partial update and delete act
    on the first document matching the filter.  An optional field is an
    [option]: a field that is absent, [undefined] or [null] is [None]. *)

Section Collection.
Variable S : Type.

Record BaseDoc := mkDoc {
  _id : ObjectId;
  dateCreated : Date;
  dateUpdated : Date;
  fields : S
}.

Record DocCollection := mkColl {
  docs : list BaseDoc;
  nextId : ObjectId
}.

Definition empty : DocCollection := mkColl [] 0%N.

Definition Filter := BaseDoc -> bool.

(** The filter [{ _id }]. *)
Definition byId (i : ObjectId) : Filter := fun d => N.eqb (_id d) i.

(** The filter [{ _id: x }] where [x] may be [undefined]: no document
    matches then. *)
Definition byOptId (i : option ObjectId) : Filter :=
  match i with
  | Some i => byId i
  | None => fun _ => false
  end.

Fixpoint updateFirst (f : Filter) (g : BaseDoc -> BaseDoc) (l : list BaseDoc) :=
  match l with
  | [] => []
  | d :: l' => if f d then g d :: l' else d :: updateFirst f g l'
  end.

Fixpoint removeFirst (f : Filter) (l : list BaseDoc) :=
  match l with
  | [] => []
  | d :: l' => if f d then l' else d :: removeFirst f l'
  end.

(** A partial update rewrites entity fields only (the collection strips
    [_id], [dateCreated] and [dateUpdated] from what it is given) and
    stamps [dateUpdated]. *)
Definition applyUpdate (upd : S -> S) (now : Date) (d : BaseDoc) : BaseDoc :=
  mkDoc (_id d) (dateCreated d) now (upd (fields d)).

(** The document with a new last-update timestamp and nothing else
    changed. *)
Definition touch (now : Date) (d : BaseDoc) : BaseDoc :=
  mkDoc (_id d) (dateCreated d) now (fields d).

(** A method is a function of the collection state; a [throw] leaves the
    writes made before it in place. *)
Definition M (A : Type) := DocCollection -> Result A * DocCollection.

Definition ret {A} (a : A) : M A := fun c => (Ok a, c).

Definition throw {A} (e : Error) : M A := fun c => (Throw e, c).

Definition bind {A B} (m : M A) (k : A -> M B) : M B :=
  fun c =>
    match m c with
    | (Ok a, c') => k a c'
    | (Throw e, c') => (Throw e, c')
    end.

(** A [for (const x of xs)] loop whose body awaits a method. *)
Fixpoint forEach {A} (xs : list A) (body : A -> M unit) : M unit :=
  match xs with
  | [] => ret tt
  | x :: xs' => bind (body x) (fun _ => forEach xs' body)
  end.

Definition createOne (item : S) (now : Date) : M ObjectId :=
  fun c =>
    (Ok (nextId c),
     mkColl (docs c ++ [mkDoc (nextId c) now now item]) (N.succ (nextId c))).

Definition readOne (f : Filter) : M (option BaseDoc) :=
  fun c => (Ok (find f (docs c)), c).

Definition readMany (f : Filter) : M (list BaseDoc) :=
  fun c => (Ok (filter f (docs c)), c).

Definition partialUpdateOne (f : Filter) (upd : S -> S) (now : Date) : M unit :=
  fun c => (Ok tt, mkColl (updateFirst f (applyUpdate upd now) (docs c)) (nextId c)).

Definition deleteOne (f : Filter) : M unit :=
  fun c => (Ok tt, mkColl (removeFirst f (docs c)) (nextId c)).

(** Identifiers handed out so far are below [nextId]. *)
Definition wf (c : DocCollection) : Prop :=
  Forall (fun d => (_id d < nextId c)%N) (docs c).

(** The document stored under an identifier. *)
Definition lookup (i : ObjectId) (c : DocCollection) : option BaseDoc :=
  find (byId i) (docs c).

End Collection.

Arguments empty {S}.
Arguments ret {S A} a _.
Arguments throw {S A} e _.

End Doc.

Import Doc.

Declare Scope concept_scope.
Delimit Scope concept_scope with concept.
Notation "x <- m ;; k" := (bind m (fun x => k))
  (at level 61, m at next level, right associativity) : concept_scope.
Notation "m ;;; k" := (bind m (fun _ => k))
  (at level 61, right associativity) : concept_scope.
Open Scope concept_scope.
Open Scope string_scope.
Open Scope list_scope.

(** JavaScript truthiness of an optional flag and of an optional string. *)
Definition truthy (b : option bool) : bool :=
  match b with
  | Some true => true
  | _ => false
  end.

Definition truthyString (s : option string) : bool :=
  match s with
  | Some s => negb (String.eqb s "")
  | None => false
  end.

(** [x !== undefined ? x : y] *)
Definition orElse {A} (x : option A) (y : A) : A :=
  match x with
  | Some a => a
  | None => y
  end.

(** The same on a field that is itself optional. *)
Definition orElseOpt {A} (x : option A) (y : option A) : option A :=
  match x with
  | Some a => Some a
  | None => y
  end.

(** A date that may be the invalid date ([None]), as [new Date(s)]
    yields it on a string that denotes no date, and the time value the
    collection keeps for it: the driver writes a date as the integer of
    its time value, and the time value NaN of the invalid date as 0. *)
Definition storedTime (d : option Date) : Date :=
  match d with
  | Some t => t
  | None => 0%Z
  end.

(** ** Messaging: [concepts/messaging.ts] *)

Module MessageDoc.

Record t := mk {
  from : ObjectId;
  to : ObjectId;
  message : string;
  attachment : option ObjectId;
  draft : option bool;
  timeDrafted : option Date;
  sent : option bool;
  timeSent : option Date;
  receivedMessageID : option ObjectId;
  received : option bool;
  timeReceived : option Date;
  sentMessageID : option ObjectId
}.

End MessageDoc.

Module MessagingConcept.

Definition Doc := BaseDoc MessageDoc.t.
Definition Messages := DocCollection MessageDoc.t.

(** Field accessors on a stored message. *)
Definition from (d : Doc) := MessageDoc.from (fields d).
Definition to (d : Doc) := MessageDoc.to (fields d).
Definition message (d : Doc) := MessageDoc.message (fields d).
Definition attachment (d : Doc) := MessageDoc.attachment (fields d).
Definition isDraft (d : Doc) := MessageDoc.draft (fields d).
Definition timeDrafted (d : Doc) := MessageDoc.timeDrafted (fields d).
Definition sent (d : Doc) := MessageDoc.sent (fields d).
Definition timeSent (d : Doc) := MessageDoc.timeSent (fields d).
Definition receivedMessageID (d : Doc) := MessageDoc.receivedMessageID (fields d).
Definition received (d : Doc) := MessageDoc.received (fields d).
Definition timeReceived (d : Doc) := MessageDoc.timeReceived (fields d).
Definition sentMessageID (d : Doc) := MessageDoc.sentMessageID (fields d).

(** The filter [{ receivedMessageID: x }]. *)
Definition byReceivedMessageID (x : ObjectId) : Filter MessageDoc.t :=
  fun d =>
    match receivedMessageID d with
    | Some y => N.eqb y x
    | None => false
    end.

Definition draft (from to : ObjectId) (message : string)
    (attachment : option ObjectId) (now : Date) : M MessageDoc.t (option Doc) :=
  _id <- createOne
           {| MessageDoc.from := from; MessageDoc.to := to;
              MessageDoc.timeDrafted := Some now; MessageDoc.message := message;
              MessageDoc.draft := Some true; MessageDoc.attachment := attachment;
              MessageDoc.sent := None; MessageDoc.timeSent := None;
              MessageDoc.receivedMessageID := None; MessageDoc.received := None;
              MessageDoc.timeReceived := None; MessageDoc.sentMessageID := None |}
           now ;;
  readOne (byId _id).

Definition editDraft (_id : ObjectId) (message : option string)
    (to : option ObjectId) (attachment : option ObjectId) (now : Date)
  : M MessageDoc.t (option Doc) :=
  messageObj <- readOne (byId _id) ;;
  match messageObj with
  | None => throw AssertionError
  | Some messageObj =>
      let updatedMessage := orElse message (MessagingConcept.message messageObj) in
      let updatedContact := orElse to (MessagingConcept.to messageObj) in
      let updatedAttachment :=
        orElseOpt attachment (MessagingConcept.attachment messageObj) in
      partialUpdateOne (byId _id)
        (fun m =>
           {| MessageDoc.from := MessageDoc.from m;
              MessageDoc.to := updatedContact;
              MessageDoc.message := updatedMessage;
              MessageDoc.attachment := updatedAttachment;
              MessageDoc.draft := MessageDoc.draft m;
              MessageDoc.timeDrafted := MessageDoc.timeDrafted m;
              MessageDoc.sent := MessageDoc.sent m;
              MessageDoc.timeSent := MessageDoc.timeSent m;
              MessageDoc.receivedMessageID := MessageDoc.receivedMessageID m;
              MessageDoc.received := MessageDoc.received m;
              MessageDoc.timeReceived := MessageDoc.timeReceived m;
              MessageDoc.sentMessageID := MessageDoc.sentMessageID m |})
        now ;;;
      readOne (byId _id)
  end.

Definition deleteDraft (user _id : ObjectId) : M MessageDoc.t unit :=
  deleteOne (byId _id).

Definition send (_id from to : ObjectId) (now : Date) : M MessageDoc.t (option Doc) :=
  messageObj <- readOne (byId _id) ;;
  match messageObj with
  | None => throw AssertionError
  | Some messageObj =>
      let currentTime := now in
      receivedMessageID <- createOne
           {| MessageDoc.from := from; MessageDoc.to := to;
              MessageDoc.message := MessagingConcept.message messageObj;
              MessageDoc.attachment := MessagingConcept.attachment messageObj;
              MessageDoc.received := Some true;
              MessageDoc.timeReceived := Some currentTime;
              MessageDoc.sentMessageID := Some _id;
              MessageDoc.draft := None; MessageDoc.timeDrafted := None;
              MessageDoc.sent := None; MessageDoc.timeSent := None;
              MessageDoc.receivedMessageID := None |}
           now ;;
      partialUpdateOne (byId _id)
        (fun m =>
           {| MessageDoc.from := MessageDoc.from m;
              MessageDoc.to := MessageDoc.to m;
              MessageDoc.message := MessageDoc.message m;
              MessageDoc.attachment := MessageDoc.attachment m;
              MessageDoc.draft := None;
              MessageDoc.timeDrafted := None;
              MessageDoc.sent := Some true;
              MessageDoc.timeSent := Some currentTime;
              MessageDoc.receivedMessageID := Some receivedMessageID;
              MessageDoc.received := MessageDoc.received m;
              MessageDoc.timeReceived := MessageDoc.timeReceived m;
              MessageDoc.sentMessageID := MessageDoc.sentMessageID m |})
        now ;;;
      readOne (byId _id)
  end.

Definition editSent (_id : ObjectId) (message : option string)
    (attachment : option ObjectId) (now : Date) : M MessageDoc.t (option Doc) :=
  messageObj <- readOne (byId _id) ;;
  match messageObj with
  | None => throw AssertionError
  | Some messageObj =>
      let updatedMessage := orElse message (MessagingConcept.message messageObj) in
      let updatedAttachment :=
        orElseOpt attachment (MessagingConcept.attachment messageObj) in
      let upd := fun m =>
           {| MessageDoc.from := MessageDoc.from m;
              MessageDoc.to := MessageDoc.to m;
              MessageDoc.message := updatedMessage;
              MessageDoc.attachment := updatedAttachment;
              MessageDoc.draft := MessageDoc.draft m;
              MessageDoc.timeDrafted := MessageDoc.timeDrafted m;
              MessageDoc.sent := MessageDoc.sent m;
              MessageDoc.timeSent := MessageDoc.timeSent m;
              MessageDoc.receivedMessageID := MessageDoc.receivedMessageID m;
              MessageDoc.received := MessageDoc.received m;
              MessageDoc.timeReceived := MessageDoc.timeReceived m;
              MessageDoc.sentMessageID := MessageDoc.sentMessageID m |} in
      partialUpdateOne (byId _id) upd now ;;;
      partialUpdateOne (byOptId (receivedMessageID messageObj)) upd now ;;;
      readOne (byId _id)
  end.

Definition read (user _id : ObjectId) : M MessageDoc.t (option Doc) :=
  readOne (byId _id).

Definition assertUserIsSender (user _id : ObjectId) : M MessageDoc.t unit :=
  message <- readOne (byId _id) ;;
  match message with
  | None => throw NotFoundError
  | Some message =>
      if negb (N.eqb (from message) user)
      then throw (UserNotSenderError user _id)
      else ret tt
  end.

Definition assertSenderOrReceiver (user _id : ObjectId) : M MessageDoc.t unit :=
  message <- readOne (byId _id) ;;
  match message with
  | None => throw NotFoundError
  | Some message =>
      if negb (N.eqb (from message) user) && N.eqb (to message) user
      then throw (UserNotMatchError user _id)
      else ret tt
  end.

Definition deleteSent (user _id : ObjectId) : M MessageDoc.t unit :=
  assertUserIsSender user _id ;;;
  m <- readOne (byId _id) ;;
  match match m with Some m => receivedMessageID m | None => None end with
  | None => throw AssertionError
  | Some receiverMessageID =>
      deleteOne (byId _id) ;;;
      deleteOne (byReceivedMessageID receiverMessageID)
  end.

(** The filter [{ from, draft: true }]. *)
Definition readDrafts (from : ObjectId) : M MessageDoc.t (list Doc) :=
  readMany (fun d => N.eqb (MessagingConcept.from d) from && truthy (isDraft d)).

(** The filter [{ from, to, sent: true }]. *)
Definition readSent (from to : ObjectId) : M MessageDoc.t (list Doc) :=
  readMany (fun d => N.eqb (MessagingConcept.from d) from
                     && N.eqb (MessagingConcept.to d) to && truthy (sent d)).

(** The filter [{ from, to, received: true }]; the recipient is the first
    parameter. *)
Definition readReceived (to from : ObjectId) : M MessageDoc.t (list Doc) :=
  readMany (fun d => N.eqb (MessagingConcept.from d) from
                     && N.eqb (MessagingConcept.to d) to && truthy (received d)).

End MessagingConcept.

(** ** Itemizing: [concepts/itemizing.ts] *)

Module ItemDoc.

Record t := mk {
  creator : ObjectId;
  title : string;
  description : string;
  status : option string
}.

End ItemDoc.

Module ItemizingConcept.

Definition Doc := BaseDoc ItemDoc.t.
Definition Items := DocCollection ItemDoc.t.

Definition STATUS_TYPES : list string := ["complete"; "in-progress"].

(** [Array.prototype.includes] on strings. *)
Definition includes (l : list string) (s : string) : bool :=
  existsb (String.eqb s) l.

Definition create (creator : ObjectId) (title description : string)
    (status : option string) (now : Date) : M ItemDoc.t (option Doc) :=
  _id <- createOne (ItemDoc.mk creator title description status) now ;;
  readOne (byId _id).

Definition update (_id : ObjectId) (title description status : option string)
    (now : Date) : M ItemDoc.t (option Doc) :=
  item <- readOne (byId _id) ;;
  match item with
  | None => throw AssertionError
  | Some item =>
      let title' := orElse title (ItemDoc.title (fields item)) in
      let description' := orElse description (ItemDoc.description (fields item)) in
      let status' := orElseOpt status (ItemDoc.status (fields item)) in
      partialUpdateOne (byId _id)
        (fun i => ItemDoc.mk (ItemDoc.creator i) title' description' status')
        now ;;;
      readOne (byId _id)
  end.

Definition delete (_id : ObjectId) : M ItemDoc.t unit :=
  deleteOne (byId _id).

Definition assertCreatorIsUser (_id user : ObjectId) : M ItemDoc.t unit :=
  item <- readOne (byId _id) ;;
  match item with
  | None => throw NotFoundError
  | Some item =>
      if negb (N.eqb (ItemDoc.creator (fields item)) user)
      then throw (ItemCreatorNotMatchError user _id)
      else ret tt
  end.

Definition assertValidStatus (status : option string) : M ItemDoc.t unit :=
  match status with
  | Some s =>
      if truthyString status && negb (includes STATUS_TYPES s)
      then throw (InvalidStatusError s)
      else ret tt
  | None => ret tt
  end.

Definition assertValidItemDetails (title description : string) : M ItemDoc.t unit :=
  if String.eqb title "" || String.eqb description ""
  then throw BadValuesError
  else ret tt.

(** The filter [{ creator }]. *)
Definition getByCreator (creator : ObjectId) : M ItemDoc.t (list Doc) :=
  readMany (fun d => N.eqb (ItemDoc.creator (fields d)) creator).

End ItemizingConcept.

(** ** Tracking: [concepts/tracking.ts] *)

Module GoalDoc.

Record t := mk {
  executor : ObjectId;
  title : string;
  description : option string;
  status : string;
  due : Date
}.

End GoalDoc.

Module TrackingConcept.

Definition Doc := BaseDoc GoalDoc.t.
Definition Goals := DocCollection GoalDoc.t.

Definition status (d : Doc) := GoalDoc.status (fields d).
Definition due (d : Doc) := GoalDoc.due (fields d).

(** The filter [{ status }]. *)
Definition byStatus (s : string) : Filter GoalDoc.t :=
  fun d => String.eqb (status d) s.

Definition create (executor : ObjectId) (title : string) (due : Date)
    (description : option string) (now : Date) : M GoalDoc.t (option Doc) :=
  let currentDate := now in
  let status := if (due <? currentDate)%Z then "past due" else "pending" in
  _id <- createOne (GoalDoc.mk executor title description status due) now ;;
  readOne (byId _id).

Definition viewOneGoal (_id : ObjectId) : M GoalDoc.t (option Doc) :=
  readOne (byId _id).

Definition edit (_id : ObjectId) (title description status : option string)
    (due : option Date) (now : Date) : M GoalDoc.t (option Doc) :=
  goal <- readOne (byId _id) ;;
  match goal with
  | None => throw NotFoundError
  | Some goal =>
      let title' := orElse title (GoalDoc.title (fields goal)) in
      let description' := orElseOpt description (GoalDoc.description (fields goal)) in
      let status' := orElse status (GoalDoc.status (fields goal)) in
      let due' := orElse due (GoalDoc.due (fields goal)) in
      partialUpdateOne (byId _id)
        (fun g => GoalDoc.mk (GoalDoc.executor g) title' description' status' due')
        now ;;;
      readOne (byId _id)
  end.

Definition delete (_id : ObjectId) : M GoalDoc.t unit :=
  deleteOne (byId _id).

Definition assertExecutorIsUser (_id user : ObjectId) : M GoalDoc.t unit :=
  goal <- readOne (byId _id) ;;
  match goal with
  | None => throw NotFoundError
  | Some goal =>
      if negb (N.eqb (GoalDoc.executor (fields goal)) user)
      then throw (GoalExecutorNotMatchError user _id)
      else ret tt
  end.

(** The partial update [{ status: "past due" }]. *)
Definition setPastDue (g : GoalDoc.t) : GoalDoc.t :=
  GoalDoc.mk (GoalDoc.executor g) (GoalDoc.title g) (GoalDoc.description g)
             "past due" (GoalDoc.due g).

Definition updateGoalStatuses (now : Date) : M GoalDoc.t unit :=
  let currentDate := now in
  pendingGoals <- readMany (byStatus "pending") ;;
  forEach pendingGoals
    (fun goal =>
       if (due goal <? currentDate)%Z
       then partialUpdateOne (byId (_id goal)) setPastDue now
       else ret tt).

(** [create] when its [due] argument is the invalid date: the test
    [due < currentDate] is false, so the status is "pending", and the
    collection keeps time 0 for the date. *)
Definition createOnInvalidDate (executor : ObjectId) (title : string)
    (description : option string) (now : Date) : M GoalDoc.t (option Doc) :=
  let status := "pending" in
  _id <- createOne (GoalDoc.mk executor title description status (storedTime None)) now ;;
  readOne (byId _id).

(** The filter [{ executor }]. *)
Definition viewGoals (executor : ObjectId) : M GoalDoc.t (list Doc) :=
  readMany (fun d => N.eqb (GoalDoc.executor (fields d)) executor).

(** The filter [{ executor, status }]. *)
Definition viewStatus (executor : ObjectId) (status : string) : M GoalDoc.t (list Doc) :=
  readMany (fun d => N.eqb (GoalDoc.executor (fields d)) executor
                     && String.eqb (TrackingConcept.status d) status).

End TrackingConcept.

(** ** Profiling: [concepts/profiling.ts] *)

Module ProfileDoc.

Record t := mk {
  user : ObjectId;
  name : string;
  contact : option string;
  bio : option string
}.

End ProfileDoc.

Module ProfilingConcept.

Definition Doc := BaseDoc ProfileDoc.t.
Definition Profiles := DocCollection ProfileDoc.t.

(** The filter [{ user }]. *)
Definition byUser (u : ObjectId) : Filter ProfileDoc.t :=
  fun d => N.eqb (ProfileDoc.user (fields d)) u.

Definition create (user : ObjectId) (name : string) (contact bio : option string)
    (now : Date) : M ProfileDoc.t (option Doc) :=
  createOne (ProfileDoc.mk user name contact bio) now ;;;
  readOne (byUser user).

Definition viewProfile (user : ObjectId) : M ProfileDoc.t (option Doc) :=
  readOne (byUser user).

Definition update (user : ObjectId) (name contact bio : option string)
    (now : Date) : M ProfileDoc.t (option Doc) :=
  userProfile <- viewProfile user ;;
  match userProfile with
  | None => throw AssertionError
  | Some userProfile =>
      let name' := orElse name (ProfileDoc.name (fields userProfile)) in
      let contact' := orElseOpt contact (ProfileDoc.contact (fields userProfile)) in
      let bio' := orElseOpt bio (ProfileDoc.bio (fields userProfile)) in
      partialUpdateOne (byUser user)
        (fun p => ProfileDoc.mk (ProfileDoc.user p) name' contact' bio')
        now ;;;
      readOne (byUser user)
  end.

Definition delete (user : ObjectId) : M ProfileDoc.t unit :=
  deleteOne (byUser user).

Definition assertProfileExists (user : ObjectId) : M ProfileDoc.t unit :=
  profile <- readOne (byUser user) ;;
  match profile with
  | None => throw (ProfileDoesNotExistsError user)
  | Some _ => ret tt
  end.

Definition assertProfileDoesNotExist (user : ObjectId) : M ProfileDoc.t unit :=
  profile <- readOne (byUser user) ;;
  match profile with
  | Some _ => throw (UserProfileExistsError user)
  | None => ret tt
  end.

End ProfilingConcept.

(** ** The routes: [routes.ts]

    A route is modelled from the point where [Sessioning.getUser] has
    resolved the session to the acting user and the [id] parameter has
    been turned into an [ObjectId]. *)

Module Routes.

Section Routes.

(** [new ObjectId(x)] on an optional string, taken as a parameter: it
    generates an identifier when [x] is [undefined], parses [x] when it is
    a well-formed identifier, and throws otherwise. *)
Variable newObjectId : option string -> Result ObjectId.

(** [PATCH /tasks/:id] *)
Definition updateTask (user oid : ObjectId) (title description status : option string)
    (now : Date) : M ItemDoc.t (option ItemizingConcept.Doc) :=
  ItemizingConcept.assertCreatorIsUser oid user ;;;
  ItemizingConcept.assertValidStatus status ;;;
  ItemizingConcept.update oid title description status now.

(** [GET /profile] *)
Definition getProfile (user : ObjectId) : M ProfileDoc.t (option ProfilingConcept.Doc) :=
  ProfilingConcept.assertProfileExists user ;;;
  ProfilingConcept.viewProfile user.

(** [POST /profile] *)
Definition createProfile (user : ObjectId) (name : string) (contact bio : option string)
    (now : Date) : M ProfileDoc.t (option ProfilingConcept.Doc) :=
  ProfilingConcept.assertProfileDoesNotExist user ;;;
  ProfilingConcept.create user name contact bio now.

(** [DELETE /profile] *)
Definition deleteProfile (user : ObjectId) : M ProfileDoc.t unit :=
  ProfilingConcept.assertProfileExists user ;;;
  ProfilingConcept.delete user.

(** [PATCH /profile] *)
Definition updateProfile (user : ObjectId) (name contact bio : option string)
    (now : Date) : M ProfileDoc.t (option ProfilingConcept.Doc) :=
  ProfilingConcept.assertProfileExists user ;;;
  ProfilingConcept.update user name contact bio now.

(** [POST /messages], with the contact user name resolved. *)
Definition writeMessage (sender contactID : ObjectId) (message : string) (now : Date)
  : M MessageDoc.t (option MessagingConcept.Doc) :=
  MessagingConcept.draft sender contactID message None now.

(** [PATCH /messages/send/:id] *)
Definition sendMessage (userID messageID : ObjectId) (now : Date)
  : M MessageDoc.t (option MessagingConcept.Doc) :=
  messageObj <- MessagingConcept.read userID messageID ;;
  match messageObj with
  | None => throw NotAllowedError
  | Some messageObj =>
      MessagingConcept.assertUserIsSender userID messageID ;;;
      if negb (truthy (MessagingConcept.isDraft messageObj))
      then throw (NotADraftError messageID)
      else MessagingConcept.send messageID userID (MessagingConcept.to messageObj) now
  end.

(** [PATCH /messages] *)
Definition editMessage (userID messageID : ObjectId) (contact message : option string)
    (now : Date) : M MessageDoc.t (option MessagingConcept.Doc) :=
  messageObj <- MessagingConcept.read userID messageID ;;
  match messageObj with
  | None => throw NotFoundError
  | Some messageObj =>
      MessagingConcept.assertUserIsSender userID messageID ;;;
      let isSent := truthy (MessagingConcept.sent messageObj) in
      if isSent && truthyString contact then throw NotAllowedError
      else if isSent then MessagingConcept.editSent messageID message None now
      else
        match newObjectId contact with
        | Throw e => throw e
        | Ok contactID =>
            MessagingConcept.editDraft messageID message (Some contactID) None now
        end
  end.

(** [DELETE /messages] *)
Definition deleteMessage (userID messageID : ObjectId) : M MessageDoc.t unit :=
  MessagingConcept.assertSenderOrReceiver userID messageID ;;;
  messageObj <- MessagingConcept.read userID messageID ;;
  match messageObj with
  | None => throw NotFoundError
  | Some messageObj =>
      MessagingConcept.assertUserIsSender userID messageID ;;;
      if truthy (MessagingConcept.sent messageObj)
      then MessagingConcept.deleteSent userID messageID
      else MessagingConcept.deleteDraft userID messageID
  end.

(** [POST /tasks] *)
Definition createTask (user : ObjectId) (title description : string) (now : Date)
  : M ItemDoc.t (option ItemizingConcept.Doc) :=
  ItemizingConcept.assertValidItemDetails title description ;;;
  ItemizingConcept.create user title description (Some "in-progress") now.

(** [DELETE /tasks/:id] *)
Definition deleteTask (user oid : ObjectId) : M ItemDoc.t unit :=
  ItemizingConcept.assertCreatorIsUser oid user ;;;
  ItemizingConcept.delete oid.

(** [GET /messages/drafts] *)
Definition readDrafts (sender : ObjectId) : M MessageDoc.t (list MessagingConcept.Doc) :=
  MessagingConcept.readDrafts sender.

(** [GET /messages/sent], with the contact user name resolved. *)
Definition readSent (sender contactID : ObjectId)
  : M MessageDoc.t (list MessagingConcept.Doc) :=
  MessagingConcept.readSent sender contactID.

(** [GET /messages/received], with the contact user name resolved. *)
Definition readReceived (receiver contactID : ObjectId)
  : M MessageDoc.t (list MessagingConcept.Doc) :=
  MessagingConcept.readReceived receiver contactID.

(** [new Date(s)] on a string, taken as a parameter: the time value of
    the date the string denotes, or [None] (the invalid date) when it
    denotes none. *)
Variable newDate : string -> option Date.

(** [POST /goals].  A request without [due] hands [undefined] to
    [new Date], which yields the invalid date as well. *)
Definition createGoal (executor : ObjectId) (title : string) (due : option string)
    (description : option string) (now : Date)
  : M GoalDoc.t (option TrackingConcept.Doc) :=
  let parsedDueDate :=
    match due with
    | Some s => newDate s
    | None => None
    end in
  match parsedDueDate with
  | Some d => TrackingConcept.create executor title d description now
  | None => TrackingConcept.createOnInvalidDate executor title description now
  end.

(** [GET /goals/pending] *)
Definition getPending (executor : ObjectId) : M GoalDoc.t (list TrackingConcept.Doc) :=
  TrackingConcept.viewStatus executor "pending".

(** [GET /goals/pastdue] *)
Definition getPastDue (executor : ObjectId) : M GoalDoc.t (list TrackingConcept.Doc) :=
  TrackingConcept.viewStatus executor "past due".

(** [PATCH /goals/:id].  edit only stores the date it is given, so the
    parsed date is handed over as the time value the collection keeps. *)
Definition updateGoal (user oid : ObjectId) (title description status due : option string)
    (now : Date) : M GoalDoc.t (option TrackingConcept.Doc) :=
  TrackingConcept.assertExecutorIsUser oid user ;;;
  parsedDueDate <-
    (if truthyString due
     then ret (option_map (fun s => storedTime (newDate s)) due)
     else goal <- TrackingConcept.viewOneGoal oid ;;
          ret (option_map TrackingConcept.due goal)) ;;
  TrackingConcept.edit oid title description status parsedDueDate now.

End Routes.

(** One request to a profile endpoint, as a transition of the profile
    collection. *)
Inductive profileStep (c : ProfilingConcept.Profiles) : ProfilingConcept.Profiles -> Prop :=
| step_getProfile user :
    profileStep c (snd (getProfile user c))
| step_createProfile user name contact bio now :
    profileStep c (snd (createProfile user name contact bio now c))
| step_deleteProfile user :
    profileStep c (snd (deleteProfile user c))
| step_updateProfile user name contact bio now :
    profileStep c (snd (updateProfile user name contact bio now c)).

(** The states of the profile collection the endpoints can reach from the
    empty collection. *)
Inductive reachable : ProfilingConcept.Profiles -> Prop :=
| reachable_empty : reachable empty
| reachable_step c c' : reachable c -> profileStep c c' -> reachable c'.

(** The profiles stored for a user. *)
Definition profilesOf (user : ObjectId) (c : ProfilingConcept.Profiles) :=
  filter (ProfilingConcept.byUser user) (docs c).

(** The invariant of the profile endpoints: no user has two profiles. *)
Definition atMostOneProfile (c : ProfilingConcept.Profiles) : Prop :=
  forall u, (List.length (profilesOf u c) <= 1)%nat.

End Routes.

(** ** Statements shared by the properties *)

(** What an owner assertion does when called with a record id [i] and a
    user [u]: [owner] reads the owner reference of a record and
    [mismatch u i] is the error of the concept for a user who is not the
    owner. *)
Definition ownerAssertionSpec {S : Type} (owner : BaseDoc S -> ObjectId)
    (mismatch : ObjectId -> ObjectId -> Error)
    (assertion : ObjectId -> ObjectId -> M S unit) : Prop :=
  forall (i u : ObjectId) (c : DocCollection S),
    snd (assertion i u c) = c /\
    (fst (assertion i u c) = Throw NotFoundError <->
       (forall d, In d (docs c) -> _id d <> i)) /\
    (fst (assertion i u c) = Throw (mismatch u i) <->
       (exists d, lookup i c = Some d /\ owner d <> u)) /\
    (fst (assertion i u c) = Ok tt <->
       (exists d, lookup i c = Some d /\ owner d = u)).

(** The message collection after user 1 drafts "hi" for user 2 at time 10
    and sends it at time 20: the sent record 0 and the received record 1. *)
Definition afterSend : MessagingConcept.Messages :=
  let c1 := snd (Routes.writeMessage 1 2 "hi" 10 empty) in
  snd (Routes.sendMessage 1 0 20 c1).

Definition sentCopy : MessagingConcept.Doc :=
  mkDoc 0 10 20
    {| MessageDoc.from := 1; MessageDoc.to := 2; MessageDoc.message := "hi";
       MessageDoc.attachment := None;
       MessageDoc.draft := None; MessageDoc.timeDrafted := None;
       MessageDoc.sent := Some true; MessageDoc.timeSent := Some 20%Z;
       MessageDoc.receivedMessageID := Some 1%N;
       MessageDoc.received := None; MessageDoc.timeReceived := None;
       MessageDoc.sentMessageID := None |}.

Definition receivedCopy : MessagingConcept.Doc :=
  mkDoc 1 20 20
    {| MessageDoc.from := 1; MessageDoc.to := 2; MessageDoc.message := "hi";
       MessageDoc.attachment := None;
       MessageDoc.draft := None; MessageDoc.timeDrafted := None;
       MessageDoc.sent := None; MessageDoc.timeSent := None;
       MessageDoc.receivedMessageID := None;
       MessageDoc.received := Some true; MessageDoc.timeReceived := Some 20%Z;
       MessageDoc.sentMessageID := Some 0%N |}.

(** No two stored documents share an identifier. *)
Definition uniqueIds {S : Type} (c : DocCollection S) : Prop :=
  NoDup (map (@_id S) (docs c)).

(** What the sweep does to one stored goal. *)
Definition reclassify (now : Date) (goal : TrackingConcept.Doc) : TrackingConcept.Doc :=
  if TrackingConcept.byStatus "pending" goal && (TrackingConcept.due goal <? now)%Z
  then applyUpdate TrackingConcept.setPastDue now goal
  else goal.

(** The body of the loop of updateGoalStatuses. *)
Definition sweepBody (now : Date) (goal : TrackingConcept.Doc) : M GoalDoc.t unit :=
  if (TrackingConcept.due goal <? now)%Z
  then partialUpdateOne (byId (_id goal)) TrackingConcept.setPastDue now
  else ret tt.

(** The goals of a snapshot that the loop rewrites under identifier [i]. *)
Definition hits (now : Date) (i : ObjectId) (goal : TrackingConcept.Doc) : bool :=
  N.eqb (_id goal) i && (TrackingConcept.due goal <? now)%Z.

(** * Properties *)

Unset Implicit Arguments.

(** ** The collection *)

Section CollectionFacts.
Context {S : Type}.
Implicit Types (f : Filter S) (l : list (BaseDoc S)) (c : DocCollection S).

Lemma find_app_none f l l' :
  find f l = None -> find f (l ++ l') = find f l'.
Proof.
  induction l as [|d l IH]; cbn; [reflexivity|].
  destruct (f d); [discriminate | exact IH].
Qed.

Lemma updateFirst_app_none f g l l' :
  find f l = None -> updateFirst f g (l ++ l') = l ++ updateFirst f g l'.
Proof.
  induction l as [|d l IH]; cbn; [reflexivity|].
  destruct (f d); [discriminate|]. intros H. now rewrite IH.
Qed.

Lemma removeFirst_app_none f l l' :
  find f l = None -> removeFirst f (l ++ l') = l ++ removeFirst f l'.
Proof.
  induction l as [|d l IH]; cbn; [reflexivity|].
  destruct (f d); [discriminate|]. intros H. now rewrite IH.
Qed.

Lemma find_none_iff f l :
  find f l = None <-> forall d, In d l -> f d = false.
Proof.
  split.
  - apply find_none.
  - induction l as [|d l IH]; cbn; [reflexivity|]. intros H.
    rewrite (H d (or_introl eq_refl)). apply IH. intros x Hx. apply H. now right.
Qed.

Lemma find_byId_fresh l (n m : ObjectId) :
  Forall (fun d => (_id d < n)%N) l -> (n <= m)%N -> find (@byId S m) l = None.
Proof.
  intros Hl Hm. apply find_none_iff. intros d Hd.
  rewrite Forall_forall in Hl. specialize (Hl d Hd).
  unfold byId. apply N.eqb_neq. lia.
Qed.

Lemma wf_fresh c m : wf c -> (nextId c <= m)%N -> lookup m c = None.
Proof. intros H Hm. unfold lookup. now apply find_byId_fresh with (n := nextId c). Qed.

Lemma byId_refl (d : BaseDoc S) : byId (_id d) d = true.
Proof. unfold byId. apply N.eqb_refl. Qed.

(** Reading by identifier after a partial update by identifier. *)
Lemma find_byId_updateFirst (i j : ObjectId) (upd : S -> S) now l :
  find (byId i) (updateFirst (byId j) (applyUpdate upd now) l) =
  if N.eqb i j then option_map (applyUpdate upd now) (find (byId i) l)
  else find (byId i) l.
Proof.
  induction l as [|d l IH]; cbn.
  - now destruct (N.eqb i j).
  - unfold byId in *.
    destruct (N.eqb_spec (_id d) j) as [E|E]; cbn;
      destruct (N.eqb_spec (_id d) i) as [E'|E'];
      destruct (N.eqb_spec i j) as [E''|E'']; try congruence; try reflexivity;
      exact IH.
Qed.

Lemma lookup_partialUpdateOne (i j : ObjectId) (upd : S -> S) now c :
  lookup i (snd (partialUpdateOne (byId j) upd now c)) =
  if N.eqb i j then option_map (applyUpdate upd now) (lookup i c) else lookup i c.
Proof. unfold lookup, partialUpdateOne. cbn. apply find_byId_updateFirst. Qed.

Lemma lookup_id (i : ObjectId) c d : lookup i c = Some d -> _id d = i.
Proof.
  unfold lookup. intros H. apply find_some in H. destruct H as [_ H].
  unfold byId in H. now apply N.eqb_eq.
Qed.

(** The first document with a fresh identifier is the one just added. *)
Lemma find_byId_at l l' (d : BaseDoc S) :
  find (byId (_id d)) l = None -> find (byId (_id d)) (l ++ d :: l') = Some d.
Proof.
  intros H. rewrite find_app_none by exact H. cbn. now rewrite byId_refl.
Qed.

Lemma updateFirst_byId_at g l l' (d : BaseDoc S) :
  find (byId (_id d)) l = None ->
  updateFirst (byId (_id d)) g (l ++ d :: l') = l ++ g d :: l'.
Proof.
  intros H. rewrite updateFirst_app_none by exact H. cbn. now rewrite byId_refl.
Qed.

Lemma find_byId_removeFirst_other (i j : ObjectId) l :
  i <> j -> find (byId i) (removeFirst (byId j) l) = find (byId i) l.
Proof.
  intros Hij. induction l as [|d l IH]; cbn; [reflexivity|].
  unfold byId in *.
  destruct (N.eqb_spec (_id d) j) as [E|E]; cbn;
    destruct (N.eqb_spec (_id d) i) as [E'|E']; try congruence; try reflexivity.
Qed.

(** Deleting by a filter that the document read does not satisfy leaves
    the read unchanged. *)
Lemma find_removeFirst_unmatched f g l d :
  find f l = Some d -> g d = false -> find f (removeFirst g l) = Some d.
Proof.
  induction l as [|x l IH]; cbn; [discriminate|]. intros Hf Hg.
  destruct (g x) eqn:Gx.
  - destruct (f x) eqn:Fx; [|exact Hf]. congruence.
  - cbn. destruct (f x); [exact Hf | now apply IH].
Qed.

(** Updating the first match of a filter that the update preserves. *)
Lemma find_updateFirst_same f g l :
  (forall d, f d = true -> f (g d) = true) ->
  find f (updateFirst f g l) = option_map g (find f l).
Proof.
  intros Hg. induction l as [|d l IH]; cbn; [reflexivity|].
  destruct (f d) eqn:Fd; cbn.
  - now rewrite (Hg d Fd).
  - now rewrite Fd.
Qed.

(** Only the value of the update at the first match matters. *)
Lemma updateFirst_ext_first f g g' l d :
  find f l = Some d -> g d = g' d -> updateFirst f g l = updateFirst f g' l.
Proof.
  induction l as [|x l IH]; cbn; [discriminate|].
  destruct (f x).
  - intros [= ->] E. now rewrite E.
  - intros Hd E. now rewrite IH.
Qed.

Lemma applyUpdate_touch (upd : S -> S) now (d : BaseDoc S) :
  upd (fields d) = fields d -> applyUpdate upd now d = touch now d.
Proof. unfold applyUpdate, touch. now intros ->. Qed.

Lemma find_none_not_In (i : ObjectId) l :
  find (byId i) l = None <-> (forall d, In d l -> _id d <> i).
Proof.
  rewrite find_none_iff. unfold byId.
  split; intros H d Hd; specialize (H d Hd); now apply N.eqb_neq.
Qed.

Lemma find_none_filter f l : find f l = None -> filter f l = [].
Proof.
  induction l as [|d l IH]; cbn; [reflexivity|].
  destruct (f d); [discriminate | exact IH].
Qed.

Lemma filter_updateFirst_length f h g l :
  (forall d, f (g d) = f d) ->
  List.length (filter f (updateFirst h g l)) = List.length (filter f l).
Proof.
  intros Hg. induction l as [|d l IH]; cbn; [reflexivity|].
  destruct (h d); cbn.
  - rewrite Hg. now destruct (f d).
  - destruct (f d); cbn; now rewrite IH.
Qed.

Lemma filter_removeFirst_length f h l :
  (List.length (filter f (removeFirst h l)) <= List.length (filter f l))%nat.
Proof.
  induction l as [|d l IH]; cbn; [lia|].
  destruct (h d); cbn.
  - destruct (f d); cbn; lia.
  - destruct (f d); cbn; lia.
Qed.

(** The operations of the collection keep the identifiers below
    [nextId]. *)
Lemma wf_empty : wf (@empty S).
Proof. constructor. Qed.

Lemma wf_createOne (item : S) now c : wf c -> wf (snd (createOne item now c)).
Proof.
  unfold wf, createOne. cbn. intros H. apply Forall_app. split.
  - eapply Forall_impl; [|exact H]. cbn. intros d Hd. lia.
  - constructor; [cbn; lia | constructor].
Qed.

Lemma wf_partialUpdateOne f (upd : S -> S) now c :
  wf c -> wf (snd (partialUpdateOne f upd now c)).
Proof.
  unfold wf, partialUpdateOne. cbn. generalize (nextId c). intros n H.
  induction H as [|d l Hd Hl IH]; cbn; [constructor|].
  destruct (f d); constructor; trivial.
Qed.

Lemma wf_deleteOne f c : wf c -> wf (snd (deleteOne f c)).
Proof.
  unfold wf, deleteOne. cbn. generalize (nextId c). intros n H.
  induction H as [|d l Hd Hl IH]; cbn; [constructor|].
  destruct (f d); [exact Hl | constructor; trivial].
Qed.

End CollectionFacts.

(** Unfolding of the collection monad. *)
Ltac run :=
  unfold bind, readOne, createOne, partialUpdateOne, deleteOne, readMany, ret, throw;
  cbn [fst snd docs nextId].

(** ** Messaging *)

Section MessagingFacts.
Import MessagingConcept.

(** C1. For every two users A and B and message text t, draft(A, B, t)
    followed by send on the id of the resulting draft leaves two stored
    records: the original one, now in state sent (sent flag true, draft
    flag and draft time cleared), and a new one in state received; both
    carry the text t, the sent record's receivedMessageID is the received
    record's id and the received record's sentMessageID is the sent
    record's id. *)
Theorem draft_then_send_links_two_records :
  forall (c : Messages) (A B : ObjectId) (t : string) (att : option ObjectId)
         (from' to' : ObjectId) (now1 now2 : Date),
    wf c ->
    exists (d s r : Doc) (c1 c2 : Messages),
      draft A B t att now1 c = (Ok (Some d), c1) /\
      isDraft d = Some true /\ from d = A /\ to d = B /\ message d = t /\
      send (_id d) from' to' now2 c1 = (Ok (Some s), c2) /\
      docs c2 = docs c ++ [s; r] /\
      lookup (_id s) c2 = Some s /\ lookup (_id r) c2 = Some r /\
      _id s = _id d /\ _id r <> _id s /\
      sent s = Some true /\ isDraft s = None /\ timeDrafted s = None /\
      received s = None /\
      received r = Some true /\ isDraft r = None /\ sent r = None /\
      message s = t /\ message r = t /\
      receivedMessageID s = Some (_id r) /\ sentMessageID r = Some (_id s).
Proof.
  intros c A B t att from' to' now1 now2 Hwf.
  pose proof (wf_fresh c _ Hwf (N.le_refl _)) as Hn.
  pose proof (wf_fresh c (N.succ (nextId c)) Hwf ltac:(lia)) as Hn'.
  unfold lookup in Hn, Hn'.
  unfold draft, send. run.
  set (d := mkDoc (nextId c) now1 now1 _) in *.
  change (nextId c) with (_id d) in Hn at 1.
  change (byId (nextId c)) with (byId (S:=MessageDoc.t) (_id d)).
  rewrite (find_byId_at _ [] d Hn).
  exists d. do 4 eexists. split; [reflexivity|].
  repeat (split; [reflexivity|]).
  cbn [docs nextId].
  rewrite (find_byId_at _ [] d Hn).
  run. rewrite <- app_assoc. cbn [app].
  rewrite (updateFirst_byId_at _ _ _ d Hn).
  set (s := applyUpdate _ now2 d).
  set (r := mkDoc (N.succ (nextId c)) now2 now2 _).
  assert (Hs : find (byId (_id s)) (docs c ++ [s; r]) = Some s)
    by (apply find_byId_at; exact Hn).
  change (_id d) with (_id s) at 1. rewrite Hs.
  split; [reflexivity|]. cbn [docs].
  split; [reflexivity|]. unfold lookup. cbn [docs].
  split; [exact Hs|].
  split.
  { change (find (byId (_id r)) (docs c ++ s :: [r]) = Some r).
    rewrite find_app_none by exact Hn'. cbn [find].
    replace (byId (_id r) s) with false
      by (symmetry; apply N.eqb_neq; cbn; lia).
    now rewrite byId_refl. }
  split; [reflexivity|].
  split; [cbn; lia|].
  repeat split; reflexivity.
Qed.

(** A concrete run of C1 on the empty collection. *)
Lemma draft_then_send_links_two_records_witness :
  wf (@empty MessageDoc.t) /\
  exists (d s r : Doc) (c1 c2 : Messages),
    draft 1 2 "hi" None 10 empty = (Ok (Some d), c1) /\
    isDraft d = Some true /\ from d = 1%N /\ to d = 2%N /\ message d = "hi" /\
    send (_id d) 1 2 20 c1 = (Ok (Some s), c2) /\
    docs c2 = docs empty ++ [s; r] /\
    lookup (_id s) c2 = Some s /\ lookup (_id r) c2 = Some r /\
    _id s = _id d /\ _id r <> _id s /\
    sent s = Some true /\ isDraft s = None /\ timeDrafted s = None /\
    received s = None /\
    received r = Some true /\ isDraft r = None /\ sent r = None /\
    message s = "hi" /\ message r = "hi" /\
    receivedMessageID s = Some (_id r) /\ sentMessageID r = Some (_id s).
Proof.
  split.
  - constructor.
  - apply (draft_then_send_links_two_records empty 1 2 "hi" None 1 2 10 20).
    constructor.
Defined.

Lemma afterSend_docs : afterSend = mkColl [sentCopy; receivedCopy] 2.
Proof. reflexivity. Qed.

(** deleteSent deletes by the filter [{ receivedMessageID }], which the
    received copy made by send (it has no receivedMessageID) never
    satisfies: the received copy stays in the collection. *)
Lemma deleteSent_keeps_received_copy :
  forall (c : Messages) (user i r : ObjectId) (s rd : Doc),
    lookup i c = Some s -> from s = user ->
    receivedMessageID s = Some r ->
    lookup r c = Some rd -> receivedMessageID rd = None -> r <> i ->
    exists c', deleteSent user i c = (Ok tt, c') /\ lookup r c' = Some rd.
Proof.
  intros c user i r s rd Hs Hfrom Hr Hrd Hnone Hri.
  unfold deleteSent, assertUserIsSender. run.
  unfold lookup in Hs, Hrd. rewrite Hs. rewrite Hfrom, N.eqb_refl. cbn [negb]. run.
  rewrite Hs, Hr. run. eexists. split; [reflexivity|].
  unfold lookup. cbn [docs].
  apply find_removeFirst_unmatched.
  - rewrite find_byId_removeFirst_other by exact Hri. exact Hrd.
  - unfold byReceivedMessageID. now rewrite Hnone.
Qed.

(** C2, on the code: after user 1 drafts and sends a message, deleteSent
    by user 1 on the sent copy returns normally and removes the sent
    record only; the linked received record 1 is still stored, whereas the
    specification has both copies removed. *)
Theorem deleteSent_leaves_received_copy :
  lookup 0 afterSend = Some sentCopy /\
  lookup 1 afterSend = Some receivedCopy /\
  deleteSent 1 0 afterSend = (Ok tt, mkColl [receivedCopy] 2) /\
  Routes.deleteMessage 1 0 afterSend = (Ok tt, mkColl [receivedCopy] 2).
Proof. repeat split; reflexivity. Qed.

(** C4. For a message in state sent with a linked received copy,
    editSent writes the same text and attachment onto both records: a
    supplied text is the text of both copies afterwards and a supplied
    attachment the attachment of both; an omitted one leaves the text, or
    the attachment, of the sent record on both.  After the call the two
    copies carry equal text and equal attachment. *)
Theorem editSent_mirrors_both_copies :
  forall (c : Messages) (i r : ObjectId) (s rd : Doc)
         (text : option string) (att : option ObjectId) (now : Date),
    lookup i c = Some s -> sent s = Some true ->
    receivedMessageID s = Some r ->
    lookup r c = Some rd -> received rd = Some true ->
    exists (s' rd' : Doc) (c' : Messages),
      editSent i text att now c = (Ok (Some s'), c') /\
      lookup i c' = Some s' /\ lookup r c' = Some rd' /\
      (forall t, text = Some t -> message s' = t /\ message rd' = t) /\
      (text = None -> message s' = message s /\ message rd' = message s) /\
      (forall a, att = Some a -> attachment s' = Some a /\ attachment rd' = Some a) /\
      (att = None ->
         attachment s' = attachment s /\ attachment rd' = attachment s) /\
      message s' = message rd' /\ attachment s' = attachment rd'.
Proof.
  intros c i r s rd text att now Hs _ Hr Hrd _.
  unfold editSent.
  unfold bind at 1. unfold readOne at 1. cbn [fst snd].
  pose proof Hs as Hs'. unfold lookup in Hs'. rewrite Hs'. rewrite Hr. cbn [byOptId].
  set (upd := fun m : MessageDoc.t => _).
  unfold bind.
  destruct (partialUpdateOne (byId i) upd now c) as [[[]|e] c1] eqn:E1;
    [|discriminate E1].
  destruct (partialUpdateOne (byId r) upd now c1) as [[[]|e] c2] eqn:E2;
    [|discriminate E2].
  assert (H1 : c1 = snd (partialUpdateOne (byId i) upd now c)) by now rewrite E1.
  assert (H2 : c2 = snd (partialUpdateOne (byId r) upd now c1)) by now rewrite E2.
  assert (Li : lookup i c2 =
               if N.eqb i r
               then option_map (applyUpdate upd now)
                      (option_map (applyUpdate upd now) (Some s))
               else option_map (applyUpdate upd now) (Some s)).
  { rewrite H2, lookup_partialUpdateOne, H1, lookup_partialUpdateOne.
    rewrite N.eqb_refl, Hs. reflexivity. }
  assert (Lr : lookup r c2 =
               option_map (applyUpdate upd now)
                 (if N.eqb r i then option_map (applyUpdate upd now) (Some rd)
                  else Some rd)).
  { rewrite H2, lookup_partialUpdateOne, H1, lookup_partialUpdateOne.
    rewrite N.eqb_refl, Hrd. reflexivity. }
  unfold readOne. fold (lookup i c2).
  destruct (N.eqb i r); destruct (N.eqb r i); cbn [option_map] in Li, Lr;
    rewrite Li; do 3 eexists;
    (split; [reflexivity|]); (split; [exact Li|]); (split; [exact Lr|]);
    repeat match goal with
           | |- _ /\ _ => split
           | |- forall _, _ = Some _ -> _ => intros ? ->
           | |- _ = None -> _ => intros ->
           end; reflexivity.
Qed.

(** editSent with the text "bye" and the attachment 5 on the sent
    message 0: both copies then carry that text and that attachment. *)
Lemma editSent_mirrors_both_copies_witness :
  exists (s' rd' : Doc) (c' : Messages),
    editSent 0 (Some "bye") (Some 5%N) 30 afterSend = (Ok (Some s'), c') /\
    lookup 0 c' = Some s' /\ lookup 1 c' = Some rd' /\
    message s' = "bye" /\ message rd' = "bye" /\
    attachment s' = Some 5%N /\ attachment rd' = Some 5%N.
Proof.
  destruct (editSent_mirrors_both_copies afterSend 0 1 sentCopy receivedCopy
              (Some "bye") (Some 5%N) 30 eq_refl eq_refl eq_refl eq_refl eq_refl)
    as (s' & rd' & c' & Hrun & Hs & Hr & Htext & _ & Hatt & _).
  destruct (Htext "bye" eq_refl) as [Hm1 Hm2].
  destruct (Hatt 5%N eq_refl) as [Ha1 Ha2].
  exists s', rd', c'. repeat (split; [assumption|]). assumption.
Defined.

(** editDraft reads the message and updates it whatever its state. *)
Lemma editDraft_accepts_any_state :
  forall (c : Messages) (i : ObjectId) (m : Doc) (text : option string)
         (to' att : option ObjectId) (now : Date),
    lookup i c = Some m ->
    exists (m' : Doc) (c' : Messages),
      editDraft i text to' att now c = (Ok (Some m'), c') /\
      message m' = orElse text (message m) /\
      isDraft m' = isDraft m /\ sent m' = sent m /\ received m' = received m.
Proof.
  intros c i m text to' att now Hm.
  unfold editDraft. unfold bind at 1. unfold readOne at 1. cbn [fst snd].
  pose proof Hm as Hm'. unfold lookup in Hm'. rewrite Hm'.
  set (upd := fun m : MessageDoc.t => _).
  unfold bind.
  destruct (partialUpdateOne (byId i) upd now c) as [[[]|e] c1] eqn:E1;
    [|discriminate E1].
  assert (H1 : c1 = snd (partialUpdateOne (byId i) upd now c)) by now rewrite E1.
  unfold readOne. fold (lookup i c1).
  rewrite H1, lookup_partialUpdateOne, N.eqb_refl, Hm. cbn [option_map].
  do 2 eexists. repeat split; reflexivity.
Qed.

(** send reads the message and sends it whatever its state. *)
Lemma send_accepts_any_state :
  forall (c : Messages) (i from' to' : ObjectId) (m : Doc) (now : Date),
    lookup i c = Some m ->
    exists (r : option Doc) (c' : Messages),
      send i from' to' now c = (Ok r, c') /\
      List.length (docs c') = Datatypes.S (List.length (docs c)).
Proof.
  intros c i from' to' m now Hm.
  unfold send. unfold bind at 1. unfold readOne at 1. cbn [fst snd].
  unfold lookup in Hm. rewrite Hm. run.
  do 2 eexists. split; [reflexivity|]. cbn [docs].
  set (g := applyUpdate _ now).
  assert (L : forall f l, List.length (updateFirst (S:=MessageDoc.t) f g l) = List.length l).
  { intros f l. induction l as [|x l IH]; cbn; [reflexivity|].
    destruct (f x); cbn; [reflexivity | now rewrite IH]. }
  rewrite L, List.length_app. cbn. lia.
Qed.

(** The send route does refuse a message that is not a draft. *)
Lemma sendMessage_refuses_non_draft :
  forall (c : Messages) (user i : ObjectId) (m : Doc) (now : Date),
    lookup i c = Some m -> from m = user -> isDraft m <> Some true ->
    Routes.sendMessage user i now c = (Throw (NotADraftError i), c).
Proof.
  intros c user i m now Hm Hfrom Hd.
  unfold Routes.sendMessage, read, assertUserIsSender. run.
  unfold lookup in Hm. rewrite Hm. cbv beta. rewrite Hm, Hfrom, N.eqb_refl.
  cbn [negb]. cbv beta iota.
  destruct (isDraft m) as [[|]|]; cbn; try reflexivity. congruence.
Qed.

(** C5, on the code: no path to editDraft throws NotADraftError.  The
    edit route hands the received copy 1 (not a draft) of a sent message
    to editDraft when its sender asks, and the text of the received copy
    alone changes; editDraft on the sent record 0 and send on the sent
    record 0 return normally as well, the latter storing a second received
    copy.  The specification has all of them fail with NotADraft. *)
Theorem editDraft_and_send_accept_non_drafts :
  isDraft receivedCopy = None /\ isDraft sentCopy = None /\
  lookup 0 afterSend = Some sentCopy /\ lookup 1 afterSend = Some receivedCopy /\
  (exists (m : Doc) (c' : Messages),
     Routes.editMessage (fun _ => Ok 7%N) 1 1 None (Some "changed") 30 afterSend
       = (Ok (Some m), c') /\
     _id m = 1%N /\ message m = "changed" /\ isDraft m = None /\
     lookup 0 c' = Some sentCopy) /\
  (exists (m : Doc) (c' : Messages),
     editDraft 0 (Some "changed") None None 30 afterSend = (Ok (Some m), c') /\
     message m = "changed" /\ sent m = Some true /\ isDraft m = None) /\
  (exists (m : Doc) (c' : Messages),
     send 0 1 2 30 afterSend = (Ok (Some m), c') /\
     List.length (docs c') = 3%nat /\ receivedMessageID m = Some 2%N).
Proof.
  repeat split; try reflexivity; do 2 eexists;
    (split; [cbv; reflexivity|]); repeat split; reflexivity.
Qed.

(** C10. For an existing message, assertSenderOrReceiver throws the
    NotAllowed error UserNotMatchError exactly when the acting user is the
    recipient and not the sender; a user who is neither sender nor
    recipient passes, and the sender always passes. *)
Theorem assertSenderOrReceiver_outcomes :
  forall (c : Messages) (user i : ObjectId) (m : Doc),
    lookup i c = Some m ->
    (assertSenderOrReceiver user i c = (Throw (UserNotMatchError user i), c)
       <-> (to m = user /\ from m <> user)) /\
    (forall e, fst (assertSenderOrReceiver user i c) = Throw e ->
               e = UserNotMatchError user i /\ errorKind e = KNotAllowed /\
               to m = user /\ from m <> user) /\
    (from m <> user -> to m <> user ->
       assertSenderOrReceiver user i c = (Ok tt, c)) /\
    (from m = user -> assertSenderOrReceiver user i c = (Ok tt, c)).
Proof.
  intros c user i m Hm.
  unfold assertSenderOrReceiver. run.
  unfold lookup in Hm. rewrite Hm.
  assert (Hok : forall P : Prop,
             ~ P ->
             ((Ok tt, c) = (Throw (UserNotMatchError user i), c) <-> P) /\
             (forall e, fst (Ok (A:=unit) tt, c) = Throw e ->
                        e = UserNotMatchError user i /\ errorKind e = KNotAllowed /\ P)).
  { intros P HP. split; [split; [discriminate | contradiction]|].
    intros e; discriminate. }
  destruct (N.eqb_spec (from m) user) as [F|F];
    destruct (N.eqb_spec (to m) user) as [T|T]; cbn [negb andb fst].
  - destruct (Hok (to m = user /\ from m <> user)) as [H1 H2]; [tauto|].
    split; [exact H1|]. split; [exact H2|]. split; reflexivity.
  - destruct (Hok (to m = user /\ from m <> user)) as [H1 H2]; [tauto|].
    split; [exact H1|]. split; [exact H2|]. split; reflexivity.
  - split; [split; [intros _; now split | reflexivity]|].
    split; [intros e [= <-]; repeat split; assumption|].
    split; intros; contradiction.
  - destruct (Hok (to m = user /\ from m <> user)) as [H1 H2]; [tauto|].
    split; [exact H1|]. split; [exact H2|]. split; reflexivity.
Qed.

Lemma assertSenderOrReceiver_outcomes_witness :
  (assertSenderOrReceiver 2 1 afterSend = (Throw (UserNotMatchError 2 1), afterSend)
     <-> (to receivedCopy = 2%N /\ from receivedCopy <> 2%N)) /\
  (forall e, fst (assertSenderOrReceiver 2 1 afterSend) = Throw e ->
             e = UserNotMatchError 2 1 /\ errorKind e = KNotAllowed /\
             to receivedCopy = 2%N /\ from receivedCopy <> 2%N) /\
  (from receivedCopy <> 2%N -> to receivedCopy <> 2%N ->
     assertSenderOrReceiver 2 1 afterSend = (Ok tt, afterSend)) /\
  (from receivedCopy = 2%N -> assertSenderOrReceiver 2 1 afterSend = (Ok tt, afterSend)).
Proof.
  apply (assertSenderOrReceiver_outcomes afterSend 2 1 receivedCopy).
  reflexivity.
Defined.

End MessagingFacts.

(** ** Owner assertions *)

Section OwnerAssertions.

(** The shape shared by the owner assertions of the concepts. *)
Lemma ownerAssertion_outcomes {S : Type} (owner : BaseDoc S -> ObjectId)
    (mismatch : ObjectId -> ObjectId -> Error)
    (Hmis : forall u i, mismatch u i <> NotFoundError) :
  ownerAssertionSpec owner mismatch
    (fun i u =>
       doc <- readOne (byId i) ;;
       match doc with
       | None => throw NotFoundError
       | Some doc =>
           if negb (N.eqb (owner doc) u) then throw (mismatch u i) else ret tt
       end).
Proof.
  intros i u c. run. fold (lookup i c).
  destruct (lookup i c) as [d|] eqn:L; cbn [fst snd].
  - assert (Hin : In d (docs c) /\ _id d = i).
    { unfold lookup in L. apply find_some in L. destruct L as [Hin Hid].
      split; [exact Hin | now apply N.eqb_eq]. }
    destruct Hin as [Hin Hid].
    destruct (N.eqb_spec (owner d) u) as [E|E]; cbn [negb fst snd].
    + split; [reflexivity|]. split; [|split].
      * split; [discriminate|]. intros H. exfalso. now apply (H d Hin).
      * split; [discriminate|]. intros [d' [[= <-] Hd']]. contradiction.
      * split; [|reflexivity]. intros _. now exists d.
    + split; [reflexivity|]. split; [|split].
      * split; [intros H; exfalso; injection H; apply Hmis|].
        intros H. exfalso. now apply (H d Hin).
      * split; [|reflexivity]. intros _. now exists d.
      * split; [discriminate|]. intros [d' [[= <-] Hd']]. contradiction.
  - split; [reflexivity|]. split; [|split].
    + split; [|reflexivity]. intros _. now apply find_none_not_In.
    + split; [|intros [d' [[=] _]]].
      intros H. exfalso. injection H. intros H'. symmetry in H'. revert H'. apply Hmis.
    + split; [discriminate|]. intros [d' [[=] _]].
Qed.

(** C6. Each owner assertion (assertCreatorIsUser on items,
    assertExecutorIsUser on goals, assertUserIsSender on messages), called
    with a record id and a user, leaves the collection unchanged and
    throws NotFound iff no record has that id, throws the concept's
    NotAllowed error carrying the attempted user and the record id iff the
    record exists and its owner differs from the user, and returns
    normally iff the record exists and its owner is the user. *)
Theorem owner_assertions_outcomes :
  ownerAssertionSpec (fun d => ItemDoc.creator (fields d))
    ItemCreatorNotMatchError ItemizingConcept.assertCreatorIsUser /\
  ownerAssertionSpec (fun d => GoalDoc.executor (fields d))
    GoalExecutorNotMatchError TrackingConcept.assertExecutorIsUser /\
  ownerAssertionSpec MessagingConcept.from
    UserNotSenderError (fun i u => MessagingConcept.assertUserIsSender u i) /\
  errorKind NotFoundError = KNotFound /\
  (forall u i, errorKind (ItemCreatorNotMatchError u i) = KNotAllowed /\
               errorKind (GoalExecutorNotMatchError u i) = KNotAllowed /\
               errorKind (UserNotSenderError u i) = KNotAllowed).
Proof.
  split; [|split; [|split]].
  - apply (ownerAssertion_outcomes (fun d => ItemDoc.creator (fields d))
             ItemCreatorNotMatchError). discriminate.
  - apply (ownerAssertion_outcomes (fun d => GoalDoc.executor (fields d))
             GoalExecutorNotMatchError). discriminate.
  - apply (ownerAssertion_outcomes MessagingConcept.from UserNotSenderError).
    discriminate.
  - repeat split.
Qed.

End OwnerAssertions.

(** ** Updates with nothing to change *)

Section EmptyUpdates.

(** A partial update that rewrites the fields of the record it was read
    from with their own values only stamps the record. *)
Lemma rewrite_own_fields {S : Type} (f : Filter S) (upd : S -> S) now
    (c : DocCollection S) (d : BaseDoc S) :
  find f (docs c) = Some d ->
  upd (fields d) = fields d ->
  (forall x, f x = true -> f (touch now x) = true) ->
  (partialUpdateOne f upd now ;;; readOne f) c =
  (Ok (Some (touch now d)), mkColl (updateFirst f (touch now) (docs c)) (nextId c)).
Proof.
  intros Hd Hupd Hf. run.
  rewrite (updateFirst_ext_first f _ (touch now) _ d Hd (applyUpdate_touch _ _ _ Hupd)).
  rewrite find_updateFirst_same by exact Hf. now rewrite Hd.
Qed.

(** C7. For an existing item, goal or profile, the update or edit
    operation of its concept called with every optional field omitted
    returns the record with only its update timestamp changed, and the
    collection differs from the prior one in that timestamp alone. *)
Theorem update_without_fields_keeps_record :
  forall (items : ItemizingConcept.Items) (goals : TrackingConcept.Goals)
         (profiles : ProfilingConcept.Profiles)
         (i j u : ObjectId) (item : ItemizingConcept.Doc)
         (goal : TrackingConcept.Doc) (profile : ProfilingConcept.Doc) (now : Date),
    lookup i items = Some item ->
    lookup j goals = Some goal ->
    find (ProfilingConcept.byUser u) (docs profiles) = Some profile ->
    ItemizingConcept.update i None None None now items =
      (Ok (Some (touch now item)),
       mkColl (updateFirst (byId i) (touch now) (docs items)) (nextId items)) /\
    TrackingConcept.edit j None None None None now goals =
      (Ok (Some (touch now goal)),
       mkColl (updateFirst (byId j) (touch now) (docs goals)) (nextId goals)) /\
    ProfilingConcept.update u None None None now profiles =
      (Ok (Some (touch now profile)),
       mkColl (updateFirst (ProfilingConcept.byUser u) (touch now) (docs profiles))
              (nextId profiles)) /\
    _id (touch now item) = _id item /\
    dateCreated (touch now item) = dateCreated item /\
    fields (touch now item) = fields item /\
    fields (touch now goal) = fields goal /\
    fields (touch now profile) = fields profile.
Proof.
  intros items goals profiles i j u item goal profile now Hi Hg Hp.
  unfold lookup in Hi, Hg.
  split; [|split; [|split; [|repeat split]]].
  - unfold ItemizingConcept.update.
    unfold bind at 1. unfold readOne at 1. rewrite Hi. cbn [orElse orElseOpt].
    apply rewrite_own_fields; [exact Hi | now destruct (fields item) | trivial].
  - unfold TrackingConcept.edit.
    unfold bind at 1. unfold readOne at 1. rewrite Hg. cbn [orElse orElseOpt].
    apply rewrite_own_fields; [exact Hg | now destruct (fields goal) | trivial].
  - unfold ProfilingConcept.update, ProfilingConcept.viewProfile.
    unfold bind at 1. unfold readOne at 1. rewrite Hp. cbn [orElse orElseOpt].
    apply rewrite_own_fields; [exact Hp | now destruct (fields profile) | trivial].
Qed.

Lemma update_without_fields_keeps_record_witness :
  let item := mkDoc 0 5 5 (ItemDoc.mk 1 "t" "d" None) in
  let goal := mkDoc 0 5 5 (GoalDoc.mk 1 "g" None "pending" 9) in
  let profile := mkDoc 0 5 5 (ProfileDoc.mk 1 "Ann" None None) in
  ItemizingConcept.update 0 None None None 7 (mkColl [item] 1) =
    (Ok (Some (touch 7 item)), mkColl [touch 7 item] 1) /\
  TrackingConcept.edit 0 None None None None 7 (mkColl [goal] 1) =
    (Ok (Some (touch 7 goal)), mkColl [touch 7 goal] 1) /\
  ProfilingConcept.update 1 None None None 7 (mkColl [profile] 1) =
    (Ok (Some (touch 7 profile)), mkColl [touch 7 profile] 1).
Proof.
  intros item goal profile.
  destruct (update_without_fields_keeps_record
              (mkColl [item] 1) (mkColl [goal] 1) (mkColl [profile] 1)
              0 0 1 item goal profile 7 eq_refl eq_refl eq_refl)
    as (H1 & H2 & H3 & _).
  exact (conj H1 (conj H2 H3)).
Defined.

End EmptyUpdates.

(** ** Itemizing *)

Section ItemizingFacts.
Import ItemizingConcept.

(** What assertValidStatus does on each argument: it throws on the
    non-empty strings outside STATUS_TYPES and nowhere else. *)
Lemma assertValidStatus_outcomes (status : option string) (c : Items) :
  assertValidStatus status c =
  match status with
  | None => (Ok tt, c)
  | Some s =>
      if String.eqb s "" then (Ok tt, c)
      else if includes STATUS_TYPES s then (Ok tt, c)
      else (Throw (InvalidStatusError s), c)
  end.
Proof.
  destruct status as [s|]; [|reflexivity].
  unfold assertValidStatus, truthyString.
  destruct (String.eqb s ""); cbn [negb andb]; [reflexivity|].
  now destruct (includes STATUS_TYPES s).
Qed.

Lemma assertValidStatus_undefined (c : Items) : assertValidStatus None c = (Ok tt, c).
Proof. reflexivity. Qed.

Lemma assertValidStatus_throws (s : string) (c : Items) :
  s <> "" -> includes STATUS_TYPES s = false ->
  assertValidStatus (Some s) c = (Throw (InvalidStatusError s), c) /\
  errorKind (InvalidStatusError s) = KNotAllowed.
Proof.
  intros Hs Hin. rewrite assertValidStatus_outcomes.
  apply String.eqb_neq in Hs. now rewrite Hs, Hin.
Qed.

(** C8, on the code: the empty string is not in STATUS_TYPES, yet
    assertValidStatus returns normally on it, and the update route then
    stores it as the status of the item.  The specification has the assertion
    throw on every string outside the enum. *)
Theorem assertValidStatus_accepts_empty_string :
  let items := snd (create 1 "title" "text" (Some "in-progress") 10 empty) in
  includes STATUS_TYPES "" = false /\
  assertValidStatus (Some "") items = (Ok tt, items) /\
  assertValidStatus None items = (Ok tt, items) /\
  assertValidStatus (Some "done") items = (Throw (InvalidStatusError "done"), items) /\
  exists (d : Doc) (items' : Items),
    Routes.updateTask 1 0 None None (Some "") 20 items = (Ok (Some d), items') /\
    ItemDoc.status (fields d) = Some "" /\ lookup 0 items' = Some d.
Proof.
  repeat split; try reflexivity.
  do 2 eexists. split; [cbv; reflexivity|]. split; reflexivity.
Qed.

End ItemizingFacts.

(** ** Tracking *)

Section TrackingFacts.
Import TrackingConcept.

Lemma setPastDue_idempotent now (o : option Doc) :
  option_map (applyUpdate setPastDue now) (option_map (applyUpdate setPastDue now) o)
  = option_map (applyUpdate setPastDue now) o.
Proof. now destruct o. Qed.

(** The loop over a snapshot [l] of goals returns normally; afterwards a
    stored goal reads as past due when the snapshot holds a goal with its
    identifier and a due date before [now], and as before otherwise. *)
Lemma forEach_sweep (now : Date) (l : list Doc) :
  forall c : Goals,
    exists c', forEach l (sweepBody now) c = (Ok tt, c') /\
      forall i, lookup i c' =
        if existsb (hits now i) l
        then option_map (applyUpdate setPastDue now) (lookup i c)
        else lookup i c.
Proof.
  induction l as [|g l IH]; intros c.
  - exists c. split; reflexivity.
  - cbn [forEach]. unfold bind.
    destruct (sweepBody now g c) as [[[]|e] c1] eqn:E1.
    + destruct (IH c1) as [c' [Hrun Hlook]].
      exists c'. split; [exact Hrun|]. intros i. rewrite Hlook.
      assert (H1 : lookup i c1 =
                   if hits now i g
                   then option_map (applyUpdate setPastDue now) (lookup i c)
                   else lookup i c).
      { unfold sweepBody, hits in *. destruct (due g <? now)%Z.
        - assert (Ec : c1 = snd (partialUpdateOne (byId (_id g)) setPastDue now c))
            by now rewrite E1.
          rewrite Ec, lookup_partialUpdateOne, N.eqb_sym, andb_true_r. reflexivity.
        - injection E1 as <-. now rewrite andb_false_r. }
      rewrite H1. cbn [existsb].
      destruct (hits now i g), (existsb (hits now i) l); cbn [orb];
        try reflexivity. apply setPastDue_idempotent.
    + exfalso. unfold sweepBody in E1.
      destruct (due g <? now)%Z; discriminate E1.
Qed.

(** The sweep reclassifies every stored goal that is pending and past its
    due date. *)
Lemma sweep_reclassifies_pending :
  forall (c : Goals) (i : ObjectId) (g : Doc) (now : Date),
    lookup i c = Some g -> status g = "pending" -> (due g < now)%Z ->
    exists c', updateGoalStatuses now c = (Ok tt, c') /\
               lookup i c' = Some (applyUpdate setPastDue now g).
Proof.
  intros c i g now Hg Hst Hdue.
  unfold updateGoalStatuses. unfold bind, readMany. cbn [fst snd].
  destruct (forEach_sweep now (filter (byStatus "pending") (docs c)) c)
    as [c' [Hrun Hlook]].
  exists c'. split; [exact Hrun|]. rewrite Hlook, Hg.
  replace (existsb _ _) with true; [reflexivity|].
  symmetry. apply existsb_exists. exists g.
  unfold lookup in Hg. apply find_some in Hg. destruct Hg as [Hin Hid].
  split.
  - apply filter_In. split; [exact Hin|]. unfold byStatus. rewrite Hst. reflexivity.
  - unfold hits. unfold byId in Hid. rewrite Hid. cbn. now apply Z.ltb_lt.
Qed.

(** C3. create stores the goal with status "past due" when the due date
    is earlier than the current time and "pending" otherwise; and when
    the goal was created pending, a sweep by updateGoalStatuses at a time
    after its due date returns normally and leaves the goal with status
    "past due" (its other fields as created). *)
Theorem create_status_then_sweep :
  forall (c : Goals) (executor : ObjectId) (title : string) (dueDate : Date)
         (description : option string) (now : Date),
    wf c ->
    exists (g : Doc) (c1 : Goals),
      create executor title dueDate description now c = (Ok (Some g), c1) /\
      lookup (_id g) c1 = Some g /\ due g = dueDate /\
      ((dueDate < now)%Z -> status g = "past due") /\
      ((now <= dueDate)%Z -> status g = "pending") /\
      forall later : Date,
        (now <= dueDate)%Z -> (dueDate < later)%Z ->
        exists (g' : Doc) (c2 : Goals),
          updateGoalStatuses later c1 = (Ok tt, c2) /\
          lookup (_id g) c2 = Some g' /\
          status g' = "past due" /\ due g' = dueDate /\
          GoalDoc.executor (fields g') = executor /\
          GoalDoc.title (fields g') = title /\
          GoalDoc.description (fields g') = description.
Proof.
  intros c executor title dueDate description now Hwf.
  pose proof (wf_fresh c _ Hwf (N.le_refl _)) as Hn. unfold lookup in Hn.
  unfold create. run.
  set (g := mkDoc (nextId c) now now _).
  assert (Hg : find (byId (_id g)) (docs c ++ [g]) = Some g)
    by (apply find_byId_at; exact Hn).
  change (byId (nextId c)) with (byId (S:=GoalDoc.t) (_id g)). rewrite Hg.
  do 2 eexists. split; [reflexivity|].
  assert (Hpast : (dueDate < now)%Z -> status g = "past due").
  { intros H. apply Z.ltb_lt in H. unfold status, g. cbn. now rewrite H. }
  assert (Hpend : (now <= dueDate)%Z -> status g = "pending").
  { intros H. apply Z.ltb_ge in H. unfold status, g. cbn. now rewrite H. }
  split; [exact Hg|]. split; [reflexivity|].
  split; [exact Hpast|]. split; [exact Hpend|].
  intros later Hle Hlt.
  destruct (sweep_reclassifies_pending
              (mkColl (docs c ++ [g]) (N.succ (nextId c))) (_id g) g later
              Hg (Hpend Hle) Hlt) as [c2 [Hrun Hlook]].
  exists (applyUpdate setPastDue later g), c2.
  split; [exact Hrun|]. split; [exact Hlook|]. repeat split.
Qed.

Lemma create_status_then_sweep_witness :
  wf (@empty GoalDoc.t) /\
  exists (g : Doc) (c1 : Goals),
    create 1 "run" 100 None 50 empty = (Ok (Some g), c1) /\
    lookup (_id g) c1 = Some g /\ due g = 100%Z /\
    ((100 < 50)%Z -> status g = "past due") /\
    ((50 <= 100)%Z -> status g = "pending") /\
    forall later : Date,
      (50 <= 100)%Z -> (100 < later)%Z ->
      exists (g' : Doc) (c2 : Goals),
        updateGoalStatuses later c1 = (Ok tt, c2) /\
        lookup (_id g) c2 = Some g' /\
        status g' = "past due" /\ due g' = 100%Z /\
        GoalDoc.executor (fields g') = 1%N /\
        GoalDoc.title (fields g') = "run" /\
        GoalDoc.description (fields g') = None.
Proof.
  split.
  - constructor.
  - apply (create_status_then_sweep empty 1 "run" 100 None 50). constructor.
Defined.

(** Two runs: a goal due at 100 created at 50 and swept at 150, and a
    goal due at 100 created at 150. *)
Example sweep_run :
  let c1 := snd (create 1 "run" 100 None 50 empty) in
  option_map status (lookup 0 c1) = Some "pending" /\
  option_map status (lookup 0 (snd (updateGoalStatuses 150 c1))) = Some "past due" /\
  option_map status (lookup 0 (snd (updateGoalStatuses 100 c1))) = Some "pending" /\
  option_map status (lookup 0 (snd (create 1 "run" 100 None 150 empty)))
    = Some "past due".
Proof. repeat split. Qed.

End TrackingFacts.

(** ** Profiling *)

Section ProfilingFacts.
Import ProfilingConcept Routes.

Lemma profileStep_preserves (c c' : Profiles) :
  profileStep c c' -> atMostOneProfile c -> atMostOneProfile c'.
Proof.
  intros Hstep Hinv u. specialize (Hinv u). unfold profilesOf in *.
  destruct Hstep as [user | user name contact bio now | user
                    | user name contact bio now].
  - unfold getProfile, assertProfileExists, viewProfile. run.
    now destruct (find (byUser user) (docs c)).
  - unfold createProfile, assertProfileDoesNotExist, create. run.
    destruct (find (byUser user) (docs c)) eqn:F; cbn [snd docs]; [exact Hinv|].
    rewrite filter_app, length_app. cbn [filter]. unfold byUser at 2. cbn [fields ProfileDoc.user].
    destruct (N.eqb_spec user u) as [->|Hne].
    + rewrite (find_none_filter _ _ F). cbn. lia.
    + cbn. lia.
  - unfold deleteProfile, assertProfileExists, delete. run.
    destruct (find (byUser user) (docs c)); cbn [snd docs]; [|exact Hinv].
    pose proof (filter_removeFirst_length (byUser u) (byUser user) (docs c)). lia.
  - unfold updateProfile, assertProfileExists, update, viewProfile. run.
    destruct (find (byUser user) (docs c)) eqn:F; cbv beta; rewrite ?F;
      cbn [snd docs]; [|exact Hinv].
    rewrite filter_updateFirst_length; [exact Hinv|]. reflexivity.
Qed.

Lemma reachable_atMostOneProfile (c : Profiles) :
  reachable c -> atMostOneProfile c.
Proof.
  induction 1 as [|c c' _ IH Hstep].
  - intros u. cbn. lia.
  - exact (profileStep_preserves c c' Hstep IH).
Qed.

(** C9. In every state the profile endpoints reach, each user has at
    most one profile.  When createProfile succeeds for user U, the state
    holds exactly one profile of U, the one returned; a second
    createProfile for U fails with UserProfileExistsError and changes
    nothing; and after deleteProfile for U, which returns normally and
    leaves no profile of U, createProfile for U succeeds again. *)
Theorem one_profile_per_user :
  forall c : Profiles,
    reachable c ->
    atMostOneProfile c /\
    forall (U : ObjectId) (name : string) (contact bio : option string) (now : Date)
           (r : option Doc) (c1 : Profiles),
      createProfile U name contact bio now c = (Ok r, c1) ->
      reachable c1 /\
      (exists p, r = Some p /\ profilesOf U c1 = [p] /\
                 ProfileDoc.user (fields p) = U /\ ProfileDoc.name (fields p) = name) /\
      (forall name' contact' bio' now',
          createProfile U name' contact' bio' now' c1
          = (Throw (UserProfileExistsError U), c1) /\
          errorKind (UserProfileExistsError U) = KNotAllowed) /\
      exists c2,
        deleteProfile U c1 = (Ok tt, c2) /\ profilesOf U c2 = [] /\
        forall name' contact' bio' now',
        exists p' c3,
          createProfile U name' contact' bio' now' c2 = (Ok (Some p'), c3) /\
          profilesOf U c3 = [p'] /\ ProfileDoc.name (fields p') = name'.
Proof.
  intros c Hreach. split; [now apply reachable_atMostOneProfile|].
  intros U name contact bio now r c1 Hcreate.
  split.
  { replace c1 with (snd (createProfile U name contact bio now c))
      by now rewrite Hcreate.
    eapply reachable_step; [exact Hreach | constructor]. }
  revert Hcreate.
  unfold createProfile, assertProfileDoesNotExist, create. run.
  destruct (find (byUser U) (docs c)) eqn:F; [discriminate|].
  set (p := mkDoc (nextId c) now now (ProfileDoc.mk U name contact bio)).
  assert (Pp : byUser U p = true) by apply N.eqb_refl.
  assert (F1 : forall l', find (byUser U) (docs c ++ p :: l') = Some p).
  { intros l'. rewrite find_app_none by exact F. cbn [find]. now rewrite Pp. }
  rewrite (F1 []). intros [= <- <-]. unfold profilesOf. cbn [docs].
  split.
  { exists p. repeat split.
    rewrite filter_app, (find_none_filter _ _ F). cbn. now rewrite Pp. }
  split.
  { intros name' contact' bio' now'. rewrite (F1 []). split; reflexivity. }
  unfold deleteProfile, assertProfileExists, delete. run. rewrite (F1 []).
  eexists. split; [reflexivity|]. cbn [docs].
  rewrite removeFirst_app_none by exact F. cbn [removeFirst]. rewrite Pp.
  rewrite app_nil_r. split; [now apply find_none_filter|].
  intros name' contact' bio' now'. rewrite F. cbn [nextId docs].
  set (p' := mkDoc (N.succ (nextId c)) now' now'
                   (ProfileDoc.mk U name' contact' bio')).
  assert (Pp' : byUser U p' = true) by apply N.eqb_refl.
  rewrite find_app_none by exact F. cbn [find]. rewrite Pp'.
  do 2 eexists. split; [reflexivity|]. cbn [docs].
  rewrite filter_app, (find_none_filter _ _ F). cbn. now rewrite Pp'.
Qed.

(** The scenario of C9 for user 1, from the empty collection. *)
Lemma one_profile_per_user_witness :
  reachable empty /\
  let c1 := snd (createProfile 1 "Ann" None None 10 empty) in
  profilesOf 1 c1 = [mkDoc 0 10 10 (ProfileDoc.mk 1 "Ann" None None)] /\
  createProfile 1 "Ann" None None 20 c1 = (Throw (UserProfileExistsError 1), c1) /\
  exists c2,
    deleteProfile 1 c1 = (Ok tt, c2) /\ profilesOf 1 c2 = [] /\
    exists p' c3,
      createProfile 1 "Ann" None None 30 c2 = (Ok (Some p'), c3) /\
      profilesOf 1 c3 = [p'].
Proof.
  split; [exact reachable_empty|].
  destruct (one_profile_per_user empty reachable_empty) as [_ H].
  destruct (H 1%N "Ann" None None 10%Z _ _ eq_refl)
    as (_ & _ & Hagain & c2 & Hdel & Hnone & Hcreate).
  split; [reflexivity|]. split; [apply Hagain|].
  exists c2. split; [exact Hdel|]. split; [exact Hnone|].
  destruct (Hcreate "Ann" None None 30%Z) as (p' & c3 & H1 & H2 & _).
  exists p', c3. split; [exact H1 | exact H2].
Defined.

End ProfilingFacts.

(** * Further properties of the concepts and routes *)

(** ** More on the collection *)

Section MoreCollectionFacts.
Context {S : Type}.
Implicit Types (f : Filter S) (l : list (BaseDoc S)) (c : DocCollection S).

Lemma removeFirst_none f l : find f l = None -> removeFirst f l = l.
Proof.
  induction l as [|d l IH]; cbn; [reflexivity|].
  destruct (f d); [discriminate|]. intros H. now rewrite IH.
Qed.


Lemma coll_eta c : mkColl (docs c) (nextId c) = c.
Proof. now destruct c. Qed.

Lemma deleteOne_none f c : find f (docs c) = None -> deleteOne f c = (Ok tt, c).
Proof.
  intros H. unfold deleteOne. now rewrite removeFirst_none, coll_eta.
Qed.

Lemma In_map_id l d : In d l -> In (_id d) (map (@_id S) l).
Proof. apply in_map. Qed.

(** With distinct identifiers, deleting by identifier leaves no document
    under it. *)
Lemma find_byId_removeFirst_same (i : ObjectId) l :
  NoDup (map (@_id S) l) -> find (byId i) (removeFirst (byId i) l) = None.
Proof.
  induction l as [|d l IH]; cbn; [reflexivity|].
  intros H. apply NoDup_cons_iff in H. destruct H as [Hd Hl].
  destruct (byId i d) eqn:E; cbn.
  - apply find_none_iff. intros x Hx. unfold byId in *.
    apply N.eqb_eq in E. apply N.eqb_neq. intros Hxi.
    apply Hd. rewrite E, <- Hxi. now apply in_map.
  - rewrite E. now apply IH.
Qed.

Lemma lookup_deleteOne (i j : ObjectId) c :
  uniqueIds c ->
  lookup i (snd (deleteOne (byId j) c)) = if N.eqb i j then None else lookup i c.
Proof.
  intros H. unfold lookup, deleteOne. cbn [snd docs].
  destruct (N.eqb_spec i j) as [->|Hij].
  - now apply find_byId_removeFirst_same.
  - now apply find_byId_removeFirst_other.
Qed.

(** With distinct identifiers, a partial update by identifier is a map. *)
Lemma updateFirst_byId_map (i : ObjectId) g l :
  NoDup (map (@_id S) l) ->
  updateFirst (byId i) g l = map (fun d => if byId i d then g d else d) l.
Proof.
  induction l as [|d l IH]; cbn; [reflexivity|].
  intros H. apply NoDup_cons_iff in H. destruct H as [Hd Hl].
  destruct (byId i d) eqn:E.
  - f_equal. rewrite <- (map_id l) at 1. apply map_ext_in. intros x Hx.
    destruct (byId i x) eqn:Ex; [|reflexivity]. exfalso. unfold byId in *.
    apply N.eqb_eq in E, Ex. apply Hd. rewrite E, <- Ex. now apply in_map.
  - f_equal. now apply IH.
Qed.

Lemma uniqueIds_empty : uniqueIds (@empty S).
Proof. constructor. Qed.

Lemma uniqueIds_createOne (item : S) now c :
  wf c -> uniqueIds c -> uniqueIds (snd (createOne item now c)).
Proof.
  unfold wf, uniqueIds, createOne. cbn [snd docs]. intros Hwf Hu.
  rewrite map_app. cbn [map _id]. apply NoDup_app; [exact Hu | repeat constructor; easy|].
  intros x Hx [<-|[]]. apply in_map_iff in Hx. destruct Hx as [d [Hd Hin]].
  rewrite Forall_forall in Hwf. specialize (Hwf d Hin). lia.
Qed.

Lemma map_id_updateFirst f (upd : S -> S) now l :
  map (@_id S) (updateFirst f (applyUpdate upd now) l) = map (@_id S) l.
Proof.
  induction l as [|d l IH]; cbn; [reflexivity|].
  destruct (f d); cbn; [reflexivity | now rewrite IH].
Qed.

Lemma uniqueIds_partialUpdateOne f (upd : S -> S) now c :
  uniqueIds c -> uniqueIds (snd (partialUpdateOne f upd now c)).
Proof.
  unfold uniqueIds, partialUpdateOne. cbn [snd docs]. now rewrite map_id_updateFirst.
Qed.

Lemma uniqueIds_deleteOne f c : uniqueIds c -> uniqueIds (snd (deleteOne f c)).
Proof.
  unfold uniqueIds, deleteOne. cbn [snd docs]. generalize (docs c). intros l.
  induction l as [|d l IH]; cbn; [trivial|]. intros H.
  apply NoDup_cons_iff in H. destruct H as [Hd Hl].
  destruct (f d); [exact Hl|]. cbn. constructor; [|now apply IH].
  intros Hin. apply Hd. clear - Hin. induction l as [|x l IH]; cbn in *; [easy|].
  destruct (f x); cbn in Hin; [now right|]. destruct Hin; [now left | right; auto].
Qed.

Lemma find_app_found f l l' d : find f l = Some d -> find f (l ++ l') = Some d.
Proof.
  induction l as [|x l IH]; cbn; [discriminate|].
  destruct (f x); [trivial | exact IH].
Qed.

Lemma lookup_createOne_old (i : ObjectId) (item : S) now c d :
  lookup i c = Some d -> lookup i (snd (createOne item now c)) = Some d.
Proof. unfold lookup, createOne. cbn [snd docs]. apply find_app_found. Qed.

End MoreCollectionFacts.

(** Evaluation of a method, rewriting with the facts [tac] knows. *)
Ltac eval_with tac :=
  unfold bind, readOne, ret, throw;
  repeat (cbv beta iota; tac; cbn [negb andb fst snd]).

(** ** More on messaging *)

Section MoreMessagingFacts.
Import MessagingConcept.
Variable newObjectId : option string -> Result ObjectId.

(** X1. On an identifier under which no message is stored, editDraft,
    send and editSent throw the AssertionError of [assert] (not
    NotFound), deleteSent throws NotFoundError, the send route throws
    the plain NotAllowedError and the edit and delete routes
    NotFoundError; deleteDraft returns normally.  None of them changes
    the collection. *)
Theorem messaging_on_missing_id :
  forall (c : Messages) (i : ObjectId),
    lookup i c = None ->
    forall (user from' to' : ObjectId) (text contact : option string)
           (to'' att : option ObjectId) (now : Date),
      editDraft i text to'' att now c = (Throw AssertionError, c) /\
      send i from' to' now c = (Throw AssertionError, c) /\
      editSent i text att now c = (Throw AssertionError, c) /\
      deleteSent user i c = (Throw NotFoundError, c) /\
      deleteDraft user i c = (Ok tt, c) /\
      Routes.sendMessage user i now c = (Throw NotAllowedError, c) /\
      Routes.editMessage newObjectId user i contact text now c
        = (Throw NotFoundError, c) /\
      Routes.deleteMessage user i c = (Throw NotFoundError, c).
Proof.
  intros c i Hnone user from' to' text contact to'' att now.
  pose proof Hnone as Hf. unfold lookup in Hf.
  repeat split.
  - unfold editDraft. run. now rewrite Hf.
  - unfold send. run. now rewrite Hf.
  - unfold editSent. run. now rewrite Hf.
  - unfold deleteSent, assertUserIsSender. run. now rewrite Hf.
  - unfold deleteDraft. now apply deleteOne_none.
  - unfold Routes.sendMessage, read. run. now rewrite Hf.
  - unfold Routes.editMessage, read. run. now rewrite Hf.
  - unfold Routes.deleteMessage, assertSenderOrReceiver. run. now rewrite Hf.
Qed.

(** X2. The delete route changes nothing unless the acting user is the
    sender of the message: the recipient gets UserNotMatchError and any
    other user UserNotSenderError, both of kind NotAllowed. *)
Theorem deleteMessage_only_by_sender :
  forall (c : Messages) (user i : ObjectId) (m : Doc),
    lookup i c = Some m -> from m <> user ->
    exists e,
      Routes.deleteMessage user i c = (Throw e, c) /\
      errorKind e = KNotAllowed /\
      (to m = user -> e = UserNotMatchError user i) /\
      (to m <> user -> e = UserNotSenderError user i).
Proof.
  intros c user i m Hm Hfrom. unfold lookup in Hm.
  unfold Routes.deleteMessage, assertSenderOrReceiver, assertUserIsSender, read. run.
  rewrite Hm. apply N.eqb_neq in Hfrom. rewrite Hfrom. cbn [negb andb].
  destruct (N.eqb_spec (to m) user) as [T|T]; cbv beta iota.
  - eexists. split; [reflexivity|]. split; [reflexivity|]. split; [reflexivity|easy].
  - rewrite Hm. cbv beta iota. rewrite Hm, Hfrom. cbn [negb]. cbv beta iota.
    eexists. split; [reflexivity|]. split; [reflexivity|]. split; [easy|reflexivity].
Qed.

Lemma deleteMessage_only_by_sender_witness :
  exists e,
    Routes.deleteMessage 2 0 afterSend = (Throw e, afterSend) /\
    errorKind e = KNotAllowed /\
    (to sentCopy = 2%N -> e = UserNotMatchError 2 0) /\
    (to sentCopy <> 2%N -> e = UserNotSenderError 2 0).
Proof.
  apply (deleteMessage_only_by_sender afterSend 2 0 sentCopy eq_refl).
  discriminate.
Defined.

(** X3. When the sender deletes a message that is not sent (a draft)
    through the delete route, in a collection with distinct identifiers,
    the message is gone afterwards and every other message is stored as
    before. *)
Theorem deleteMessage_removes_draft :
  forall (c : Messages) (user i : ObjectId) (m : Doc),
    uniqueIds c ->
    lookup i c = Some m -> from m = user -> sent m <> Some true ->
    exists c',
      Routes.deleteMessage user i c = (Ok tt, c') /\
      lookup i c' = None /\
      (forall j, j <> i -> lookup j c' = lookup j c) /\
      uniqueIds c'.
Proof.
  intros c user i m Hu Hm Hfrom Hsent. pose proof Hm as Hf. unfold lookup in Hf.
  assert (Ht : truthy (sent m) = false)
    by (destruct (sent m) as [[|]|]; [congruence | reflexivity | reflexivity]).
  unfold Routes.deleteMessage, assertSenderOrReceiver, assertUserIsSender, read,
    deleteDraft.
  unfold bind, readOne, ret, throw.
  repeat (cbv beta iota; rewrite ?Hf, ?Hfrom, ?N.eqb_refl, ?Ht; cbn [negb andb fst snd]).
  exists (snd (deleteOne (byId i) c)). split; [reflexivity|].
  split; [|split].
  - rewrite lookup_deleteOne by exact Hu. now rewrite N.eqb_refl.
  - intros j Hj. rewrite lookup_deleteOne by exact Hu.
    now destruct (N.eqb_spec j i).
  - now apply uniqueIds_deleteOne.
Qed.

Lemma deleteMessage_removes_draft_witness :
  let c := snd (Routes.writeMessage 1 2 "hi" 10 empty) in
  exists c',
    Routes.deleteMessage 1 0 c = (Ok tt, c') /\
    lookup 0 c' = None /\
    (forall j, j <> 0%N -> lookup j c' = lookup j c) /\
    uniqueIds c'.
Proof.
  intros c.
  apply (deleteMessage_removes_draft c 1 0
           (mkDoc 0 10 10 (MessageDoc.mk 1 2 "hi" None (Some true) (Some 10%Z)
                                         None None None None None None))).
  - repeat constructor. cbn. tauto.
  - reflexivity.
  - reflexivity.
  - discriminate.
Defined.

(** The run of the send method on a stored message. *)
Lemma send_run (c : Messages) (i from' to' : ObjectId) (m : Doc) (now : Date) :
  lookup i c = Some m ->
  exists (s : Doc) (c1 : Messages),
    send i from' to' now c = (Ok (Some s), c1) /\
    lookup i c1 = Some s /\
    _id s = _id m /\ from s = from m /\ to s = to m /\ message s = message m /\
    attachment s = attachment m /\
    sent s = Some true /\ isDraft s = None /\ timeDrafted s = None /\
    timeSent s = Some now /\ receivedMessageID s = Some (nextId c) /\
    (forall j, j <> i -> (j < nextId c)%N -> lookup j c1 = lookup j c) /\
    nextId c1 = N.succ (nextId c) /\
    List.length (docs c1) = Datatypes.S (List.length (docs c)).
Proof.
  intros Hm. pose proof Hm as Hf. unfold lookup in Hf.
  unfold send. unfold bind at 1. unfold readOne at 1. cbn [fst snd]. rewrite Hf.
  set (item := MessageDoc.mk _ _ _ _ _ _ _ _ _ _ _ _).
  unfold bind at 1. unfold createOne at 1. cbn [fst snd].
  set (c0 := mkColl _ _).
  set (upd := fun m0 : MessageDoc.t => _).
  unfold bind.
  destruct (partialUpdateOne (byId i) upd now c0) as [[[]|e] c1] eqn:E1;
    [|discriminate E1].
  assert (H1 : c1 = snd (partialUpdateOne (byId i) upd now c0)) by now rewrite E1.
  assert (L0 : lookup i c0 = Some m) by (unfold lookup, c0; cbn [docs]; now apply find_app_found).
  assert (L1 : lookup i c1 = Some (applyUpdate upd now m)).
  { rewrite H1, lookup_partialUpdateOne, N.eqb_refl, L0. reflexivity. }
  unfold readOne. fold (lookup i c1). rewrite L1.
  do 2 eexists. split; [reflexivity|]. split; [exact L1|].
  repeat (split; [reflexivity|]).
  split; [|split].
  - intros j Hj Hlt. rewrite H1, lookup_partialUpdateOne.
    destruct (N.eqb_spec j i); [contradiction|].
    unfold lookup, c0. cbn [docs].
    destruct (find (byId j) (docs c)) as [d|] eqn:F.
    + now apply find_app_found.
    + rewrite find_app_none by exact F. cbn. unfold byId. cbn.
      destruct (N.eqb_spec (nextId c) j); [lia | reflexivity].
  - rewrite H1. reflexivity.
  - rewrite H1. unfold partialUpdateOne. cbn [snd docs].
    assert (L : forall f g l, List.length (updateFirst (S:=MessageDoc.t) f g l)
                              = List.length l).
    { intros f g l. induction l as [|x l IH]; cbn; [reflexivity|].
      destruct (f x); cbn; [reflexivity | now rewrite IH]. }
    rewrite L. unfold c0. cbn [docs]. rewrite List.length_app. cbn. lia.
Qed.

(** X4. On a stored message the send route throws UserNotSenderError
    for a user who is not its sender and NotADraftError for the sender
    when the message is not a draft, changing nothing.  For the sender's
    draft it returns the message in state sent with sender, recipient and
    text unchanged, and a second request to send the same message is
    refused with NotADraftError: a message is sent at most once. *)
Theorem sendMessage_at_most_once :
  forall (c : Messages) (user i : ObjectId) (m : Doc) (now : Date),
    lookup i c = Some m ->
    (from m <> user ->
       Routes.sendMessage user i now c = (Throw (UserNotSenderError user i), c)) /\
    (from m = user -> isDraft m <> Some true ->
       Routes.sendMessage user i now c = (Throw (NotADraftError i), c)) /\
    (from m = user -> isDraft m = Some true ->
       exists (s : Doc) (c1 : Messages),
         Routes.sendMessage user i now c = (Ok (Some s), c1) /\
         lookup i c1 = Some s /\
         sent s = Some true /\ isDraft s = None /\
         from s = user /\ to s = to m /\ message s = message m /\
         List.length (docs c1) = Datatypes.S (List.length (docs c)) /\
         forall now',
           Routes.sendMessage user i now' c1 = (Throw (NotADraftError i), c1)).
Proof.
  intros c user i m now Hm. pose proof Hm as Hf. unfold lookup in Hf.
  split; [|split].
  - intros Hfrom. apply N.eqb_neq in Hfrom.
    unfold Routes.sendMessage, read, assertUserIsSender.
    eval_with ltac:(rewrite ?Hf, ?Hfrom). reflexivity.
  - intros Hfrom Hd. now apply sendMessage_refuses_non_draft with (m := m).
  - intros Hfrom Hd.
    destruct (send_run c i user (to m) m now Hm)
      as (s & c1 & Hrun & Hs & _ & Hfs & Hts & Hms & _ & Hsent & Hdraft & _).
    exists s, c1.
    split.
    { unfold Routes.sendMessage, read, assertUserIsSender.
      unfold bind at 1. unfold readOne at 1. cbn [fst snd]. rewrite Hf.
      unfold bind at 1. unfold bind at 1. unfold readOne at 1. cbn [fst snd].
      rewrite Hf, Hfrom, N.eqb_refl. cbn [negb]. unfold ret at 1.
      rewrite Hd. cbn [truthy negb]. exact Hrun. }
    split; [exact Hs|]. split; [exact Hsent|]. split; [exact Hdraft|].
    split; [congruence|]. split; [exact Hts|]. split; [exact Hms|].
    destruct (send_run c i user (to m) m now Hm)
      as (s' & c1' & Hrun' & _ & _ & _ & _ & _ & _ & _ & _ & _ & _ & _ & _ & _ & Hlen).
    rewrite Hrun in Hrun'. injection Hrun' as _ <-.
    split; [exact Hlen|].
    intros now'. apply sendMessage_refuses_non_draft with (m := s).
    + exact Hs.
    + congruence.
    + rewrite Hdraft. discriminate.
Qed.

Lemma sendMessage_at_most_once_witness :
  let c := snd (Routes.writeMessage 1 2 "hi" 10 empty) in
  exists (s : Doc) (c1 : Messages),
    Routes.sendMessage 1 0 20 c = (Ok (Some s), c1) /\
    forall now', Routes.sendMessage 1 0 now' c1 = (Throw (NotADraftError 0), c1).
Proof.
  intros c.
  destruct (sendMessage_at_most_once c 1 0
              (mkDoc 0 10 10 (MessageDoc.mk 1 2 "hi" None (Some true) (Some 10%Z)
                                            None None None None None None))
              20 eq_refl) as (_ & _ & H).
  destruct (H eq_refl eq_refl) as (s & c1 & H1 & _ & _ & _ & _ & _ & _ & _ & H2).
  exists s, c1. split; [exact H1 | exact H2].
Defined.

(** The collection after a user writes a message and sends it through
    the routes. *)
Lemma write_send_run (c : Messages) (A B : ObjectId) (t : string) (now1 now2 : Date) :
  wf c ->
  let d := mkDoc (nextId c) now1 now1
             (MessageDoc.mk A B t None (Some true) (Some now1)
                            None None None None None None) in
  let s := mkDoc (nextId c) now1 now2
             (MessageDoc.mk A B t None None None (Some true) (Some now2)
                            (Some (N.succ (nextId c))) None None None) in
  let r := mkDoc (N.succ (nextId c)) now2 now2
             (MessageDoc.mk A B t None None None None None None
                            (Some true) (Some now2) (Some (nextId c))) in
  Routes.writeMessage A B t now1 c
    = (Ok (Some d), mkColl (docs c ++ [d]) (N.succ (nextId c))) /\
  Routes.sendMessage A (nextId c) now2 (mkColl (docs c ++ [d]) (N.succ (nextId c)))
    = (Ok (Some s), mkColl (docs c ++ [s; r]) (N.succ (N.succ (nextId c)))).
Proof.
  intros Hwf d s r.
  pose proof (wf_fresh c _ Hwf (N.le_refl _)) as Hn. unfold lookup in Hn.
  assert (Hd : find (byId (nextId c)) (docs c ++ [d]) = Some d)
    by (apply (find_byId_at (docs c) [] d); exact Hn).
  split.
  - unfold Routes.writeMessage, draft. run. fold d. now rewrite Hd.
  - unfold Routes.sendMessage, read, assertUserIsSender, send.
    unfold bind, readOne, createOne, partialUpdateOne, ret, throw.
    repeat (cbv beta iota; cbn [fst snd docs nextId]; rewrite ?Hd).
    change (from d) with A. rewrite N.eqb_refl. cbn [negb].
    change (isDraft d) with (Some true). cbn [truthy negb].
    cbv beta iota. cbn [fst snd docs nextId]. rewrite Hd.
    cbv beta iota. cbn [fst snd docs nextId].
    rewrite <- app_assoc. cbn [app].
    rewrite (updateFirst_byId_at _ (docs c) _ d Hn).
    match goal with
    | |- (Ok (find _ (docs c ++ ?l)), _) = _ => change l with [s; r]
    end.
    change (byId (nextId c)) with (byId (S:=MessageDoc.t) (_id s)).
    now rewrite (find_byId_at (docs c) [r] s Hn).
Qed.

(** X5. Through the routes, on a collection whose identifiers are below
    the next one to hand out: a message written by A for B is added to
    A's drafts; once A sends it, A's drafts are as before the message was
    written, the message is added to what A has sent to B, and a copy
    linked to it, with the same text, is added to what B has received
    from A. *)
Theorem written_then_sent_moves_folders :
  forall (c : Messages) (A B : ObjectId) (t : string) (now1 now2 : Date)
         (drafts sentToB receivedFromA : list Doc),
    wf c ->
    Routes.readDrafts A c = (Ok drafts, c) ->
    Routes.readSent A B c = (Ok sentToB, c) ->
    Routes.readReceived B A c = (Ok receivedFromA, c) ->
    exists (d s r : Doc) (c1 c2 : Messages),
      Routes.writeMessage A B t now1 c = (Ok (Some d), c1) /\
      Routes.readDrafts A c1 = (Ok (drafts ++ [d]), c1) /\
      Routes.sendMessage A (_id d) now2 c1 = (Ok (Some s), c2) /\
      Routes.readDrafts A c2 = (Ok drafts, c2) /\
      Routes.readSent A B c2 = (Ok (sentToB ++ [s]), c2) /\
      Routes.readReceived B A c2 = (Ok (receivedFromA ++ [r]), c2) /\
      _id s = _id d /\ message s = t /\ message r = t /\
      sentMessageID r = Some (_id s) /\ receivedMessageID s = Some (_id r).
Proof.
  intros c A B t now1 now2 drafts sentToB receivedFromA Hwf Hd Hs Hr.
  destruct (write_send_run c A B t now1 now2 Hwf) as [Hw Hsend].
  unfold Routes.readDrafts, Routes.readSent, Routes.readReceived,
    readDrafts, readSent, readReceived, readMany in *.
  injection Hd as Hd. injection Hs as Hs. injection Hr as Hr.
  do 5 eexists. split; [exact Hw|].
  split.
  { cbn [docs]. rewrite filter_app, Hd. cbn [filter]. unfold from at 1, isDraft at 1.
    cbn [fields MessageDoc.from MessageDoc.draft]. rewrite N.eqb_refl. reflexivity. }
  split; [exact Hsend|].
  split; [|split; [|split]].
  - cbn [docs]. rewrite filter_app, Hd. cbn. rewrite !N.eqb_refl. cbn.
    now rewrite app_nil_r.
  - cbn [docs]. rewrite filter_app, Hs. cbn. rewrite !N.eqb_refl. reflexivity.
  - cbn [docs]. rewrite filter_app, Hr. cbn. rewrite !N.eqb_refl. reflexivity.
  - repeat split; reflexivity.
Qed.

Lemma written_then_sent_moves_folders_witness :
  exists (d s r : Doc) (c1 c2 : Messages),
    Routes.writeMessage 1 2 "hi" 10 empty = (Ok (Some d), c1) /\
    Routes.readDrafts 1 c1 = (Ok ([] ++ [d]), c1) /\
    Routes.sendMessage 1 (_id d) 20 c1 = (Ok (Some s), c2) /\
    Routes.readDrafts 1 c2 = (Ok [], c2) /\
    Routes.readSent 1 2 c2 = (Ok ([] ++ [s]), c2) /\
    Routes.readReceived 2 1 c2 = (Ok ([] ++ [r]), c2) /\
    _id s = _id d /\ message s = "hi" /\ message r = "hi" /\
    sentMessageID r = Some (_id s) /\ receivedMessageID s = Some (_id r).
Proof.
  apply (written_then_sent_moves_folders empty 1 2 "hi" 10 20 [] [] []);
    [constructor | reflexivity | reflexivity | reflexivity].
Defined.

(** The run of editDraft on a stored message. *)
Lemma editDraft_run (c : Messages) (i : ObjectId) (m : Doc) (text : option string)
    (to' att : option ObjectId) (now : Date) :
  lookup i c = Some m ->
  let m' := mkDoc (_id m) (dateCreated m) now
              (MessageDoc.mk (from m) (orElse to' (to m)) (orElse text (message m))
                 (orElseOpt att (attachment m)) (isDraft m) (timeDrafted m)
                 (sent m) (timeSent m) (receivedMessageID m)
                 (received m) (timeReceived m) (sentMessageID m)) in
  exists c',
    editDraft i text to' att now c = (Ok (Some m'), c') /\
    lookup i c' = Some m' /\
    (forall j, j <> i -> lookup j c' = lookup j c) /\
    nextId c' = nextId c.
Proof.
  intros Hm m'. pose proof Hm as Hf. unfold lookup in Hf.
  unfold editDraft. unfold bind at 1. unfold readOne at 1. cbn [fst snd]. rewrite Hf.
  set (upd := fun m0 : MessageDoc.t => _).
  unfold bind.
  destruct (partialUpdateOne (byId i) upd now c) as [[[]|e] c1] eqn:E1;
    [|discriminate E1].
  assert (H1 : c1 = snd (partialUpdateOne (byId i) upd now c)) by now rewrite E1.
  assert (L1 : lookup i c1 = Some m').
  { rewrite H1, lookup_partialUpdateOne, N.eqb_refl, Hm. reflexivity. }
  unfold readOne. fold (lookup i c1). rewrite L1.
  exists c1. split; [reflexivity|]. split; [exact L1|]. split.
  - intros j Hj. rewrite H1, lookup_partialUpdateOne.
    now destruct (N.eqb_spec j i).
  - now rewrite H1.
Qed.

(** X6. editDraft on a stored message stores each supplied value (text,
    recipient, attachment) in place of the stored one, keeps the stored
    value of each omitted one, and stamps the update time; the sender, the draft, sent and
    received flags, the time stamps of those states, the cross-reference
    identifiers, the identifier and the creation date stay as they were,
    and no other message is touched. *)
Theorem editDraft_changes_only_content :
  forall (c : Messages) (i : ObjectId) (m : Doc) (text : option string)
         (to' att : option ObjectId) (now : Date),
    lookup i c = Some m ->
    exists (m' : Doc) (c' : Messages),
      editDraft i text to' att now c = (Ok (Some m'), c') /\
      lookup i c' = Some m' /\
      (forall t, text = Some t -> message m' = t) /\
      (text = None -> message m' = message m) /\
      (forall k, to' = Some k -> to m' = k) /\
      (to' = None -> to m' = to m) /\
      (forall a, att = Some a -> attachment m' = Some a) /\
      (att = None -> attachment m' = attachment m) /\
      dateUpdated m' = now /\
      from m' = from m /\ isDraft m' = isDraft m /\ sent m' = sent m /\
      received m' = received m /\ timeDrafted m' = timeDrafted m /\
      timeSent m' = timeSent m /\ timeReceived m' = timeReceived m /\
      receivedMessageID m' = receivedMessageID m /\
      sentMessageID m' = sentMessageID m /\
      _id m' = _id m /\ dateCreated m' = dateCreated m /\
      (forall j, j <> i -> lookup j c' = lookup j c).
Proof.
  intros c i m text to' att now Hm.
  destruct (editDraft_run c i m text to' att now Hm) as (c' & Hrun & Hl & Hframe & _).
  do 2 eexists. split; [exact Hrun|]. split; [exact Hl|].
  repeat (split; [first [ reflexivity
                        | intros ? ->; reflexivity
                        | intros ->; reflexivity ]|]).
  exact Hframe.
Qed.

(** editDraft on the sent record 0 with a text, a recipient and an
    attachment, and with the text alone. *)
Lemma editDraft_changes_only_content_witness :
  (exists (m' : Doc) (c' : Messages),
     editDraft 0 (Some "bye") (Some 3%N) (Some 8%N) 30 afterSend
       = (Ok (Some m'), c') /\
     message m' = "bye" /\ to m' = 3%N /\ attachment m' = Some 8%N /\
     sent m' = Some true /\ lookup 1 c' = Some receivedCopy) /\
  (exists (m' : Doc) (c' : Messages),
     editDraft 0 (Some "bye") None None 30 afterSend = (Ok (Some m'), c') /\
     message m' = "bye" /\ to m' = 2%N /\ attachment m' = None).
Proof.
  split.
  - destruct (editDraft_changes_only_content afterSend 0 sentCopy (Some "bye")
                (Some 3%N) (Some 8%N) 30 eq_refl)
      as (m' & c' & H1 & _ & Ht & _ & Hk & _ & Ha & _ & _ & _ & _ & Hs & _ & _ & _ & _
          & _ & _ & _ & _ & H5).
    exists m', c'. split; [exact H1|]. split; [exact (Ht "bye" eq_refl)|].
    split; [exact (Hk 3%N eq_refl)|]. split; [exact (Ha 8%N eq_refl)|].
    split; [exact Hs|]. rewrite H5; [reflexivity | discriminate].
  - destruct (editDraft_changes_only_content afterSend 0 sentCopy (Some "bye")
                None None 30 eq_refl)
      as (m' & c' & H1 & _ & Ht & _ & _ & Hk & _ & Ha & _).
    exists m', c'. split; [exact H1|]. split; [exact (Ht "bye" eq_refl)|].
    split; [exact (Hk eq_refl) | exact (Ha eq_refl)].
Defined.

(** X7. The edit route, asked by the sender of a stored message: on a
    sent message with a contact it throws NotAllowedError and changes
    nothing; on a message that is not sent it replaces the recipient by
    the identifier the ObjectId constructor returns for the contact (also
    when no contact is given), sets the text when one is given, and
    leaves the sender, the draft flag and every other message as they
    were; when the constructor throws, the error is passed on and nothing
    changes. *)
Theorem editMessage_replaces_recipient :
  forall (c : Messages) (user i : ObjectId) (m : Doc)
         (contact text : option string) (now : Date),
    lookup i c = Some m -> from m = user ->
    (sent m = Some true -> truthyString contact = true ->
       Routes.editMessage newObjectId user i contact text now c
       = (Throw NotAllowedError, c)) /\
    (sent m <> Some true -> forall e, newObjectId contact = Throw e ->
       Routes.editMessage newObjectId user i contact text now c = (Throw e, c)) /\
    (sent m <> Some true -> forall k, newObjectId contact = Ok k ->
       exists (m' : Doc) (c' : Messages),
         Routes.editMessage newObjectId user i contact text now c
         = (Ok (Some m'), c') /\
         lookup i c' = Some m' /\ to m' = k /\
         message m' = orElse text (message m) /\
         from m' = user /\ isDraft m' = isDraft m /\
         (forall j, j <> i -> lookup j c' = lookup j c)).
Proof.
  intros c user i m contact text now Hm Hfrom.
  pose proof Hm as Hf. unfold lookup in Hf.
  assert (Hpre : forall k : M MessageDoc.t (option Doc),
            Routes.editMessage newObjectId user i contact text now c =
            (let isSent := truthy (sent m) in
             if isSent && truthyString contact then throw NotAllowedError
             else if isSent then editSent i text None now
             else match newObjectId contact with
                  | Throw e => throw e
                  | Ok contactID => editDraft i text (Some contactID) None now
                  end) c).
  { intros _. unfold Routes.editMessage, read, assertUserIsSender.
    unfold bind at 1. unfold readOne at 1. cbn [fst snd]. rewrite Hf.
    unfold bind at 1. unfold bind at 1. unfold readOne at 1. cbn [fst snd].
    rewrite Hf, Hfrom, N.eqb_refl. reflexivity. }
  specialize (Hpre (ret None)). rewrite Hpre. clear Hpre. cbv zeta.
  split; [|split].
  - intros Hs Hc. rewrite Hs, Hc. reflexivity.
  - intros Hs e He.
    replace (truthy (sent m)) with false
      by (destruct (sent m) as [[|]|]; [congruence | reflexivity | reflexivity]).
    cbn [andb]. now rewrite He.
  - intros Hs k Hk.
    replace (truthy (sent m)) with false
      by (destruct (sent m) as [[|]|]; [congruence | reflexivity | reflexivity]).
    cbn [andb]. rewrite Hk.
    destruct (editDraft_run c i m text (Some k) None now Hm)
      as (c' & Hrun & Hl & Hframe & _).
    do 2 eexists. split; [exact Hrun|]. split; [exact Hl|].
    repeat (split; [first [reflexivity | exact Hfrom]|]). exact Hframe.
Qed.

(** X8. deleteSent deletes nothing unless the user is the sender and
    the message has been sent: on a stored message it throws
    UserNotSenderError for any other user, and for the sender of a
    message without a receivedMessageID (a draft) the AssertionError of
    [assert]; the collection is unchanged in both cases. *)
Theorem deleteSent_refusals :
  forall (c : Messages) (user i : ObjectId) (m : Doc),
    lookup i c = Some m ->
    (from m <> user ->
       deleteSent user i c = (Throw (UserNotSenderError user i), c)) /\
    (from m = user -> receivedMessageID m = None ->
       deleteSent user i c = (Throw AssertionError, c)).
Proof.
  intros c user i m Hm. pose proof Hm as Hf. unfold lookup in Hf.
  split.
  - intros Hfrom. apply N.eqb_neq in Hfrom.
    unfold deleteSent, assertUserIsSender.
    eval_with ltac:(rewrite ?Hf, ?Hfrom). reflexivity.
  - intros Hfrom Hnone.
    unfold deleteSent, assertUserIsSender.
    eval_with ltac:(rewrite ?Hf, ?Hfrom, ?N.eqb_refl, ?Hnone). reflexivity.
Qed.

Lemma deleteSent_refusals_witness :
  deleteSent 2 0 afterSend = (Throw (UserNotSenderError 2 0), afterSend) /\
  deleteSent 1 1 afterSend = (Throw AssertionError, afterSend).
Proof.
  split.
  - apply (deleteSent_refusals afterSend 2 0 sentCopy eq_refl). discriminate.
  - apply (deleteSent_refusals afterSend 1 1 receivedCopy eq_refl); reflexivity.
Defined.

End MoreMessagingFacts.

(** The edit route on the draft of user 1, with a constructor that
    generates identifier 9 when no contact is given. *)
Lemma editMessage_replaces_recipient_witness :
  let c := snd (Routes.writeMessage 1 2 "hi" 10 empty) in
  exists (m' : MessagingConcept.Doc) (c' : MessagingConcept.Messages),
    Routes.editMessage (fun _ => Ok 9%N) 1 0 None (Some "bye") 30 c
    = (Ok (Some m'), c') /\
    MessagingConcept.to m' = 9%N /\ MessagingConcept.message m' = "bye".
Proof.
  intros c.
  destruct (editMessage_replaces_recipient (fun _ => Ok 9%N) c 1 0
              (mkDoc 0 10 10 (MessageDoc.mk 1 2 "hi" None (Some true) (Some 10%Z)
                                            None None None None None None))
              None (Some "bye") 30 eq_refl eq_refl) as (_ & _ & H).
  destruct (H ltac:(discriminate) 9%N eq_refl) as (m' & c' & H1 & _ & H2 & H3 & _).
  exists m', c'. split; [exact H1|]. split; [exact H2 | exact H3].
Defined.

Lemma messaging_on_missing_id_witness :
  MessagingConcept.send 3 1 2 10 afterSend = (Throw AssertionError, afterSend) /\
  Routes.deleteMessage 1 3 afterSend = (Throw NotFoundError, afterSend).
Proof.
  destruct (messaging_on_missing_id (fun _ => Ok 9%N) afterSend 3 eq_refl
              1 1 2 None None None None 10)
    as (_ & H1 & _ & _ & _ & _ & _ & H2).
  exact (conj H1 H2).
Defined.

(** ** More on itemizing *)

Section MoreItemizingFacts.
Import ItemizingConcept.

(** The run of update on a stored item. *)
Lemma update_run (c : Items) (i : ObjectId) (d : Doc)
    (title description status : option string) (now : Date) :
  lookup i c = Some d ->
  let d' := mkDoc (_id d) (dateCreated d) now
              (ItemDoc.mk (ItemDoc.creator (fields d))
                 (orElse title (ItemDoc.title (fields d)))
                 (orElse description (ItemDoc.description (fields d)))
                 (orElseOpt status (ItemDoc.status (fields d)))) in
  exists c',
    update i title description status now c = (Ok (Some d'), c') /\
    lookup i c' = Some d' /\
    (forall j, j <> i -> lookup j c' = lookup j c).
Proof.
  intros Hd d'. pose proof Hd as Hf. unfold lookup in Hf.
  unfold update. unfold bind at 1. unfold readOne at 1. cbn [fst snd]. rewrite Hf.
  set (upd := fun i0 : ItemDoc.t => _).
  unfold bind.
  destruct (partialUpdateOne (byId i) upd now c) as [[[]|e] c1] eqn:E1;
    [|discriminate E1].
  assert (H1 : c1 = snd (partialUpdateOne (byId i) upd now c)) by now rewrite E1.
  assert (L1 : lookup i c1 = Some d').
  { rewrite H1, lookup_partialUpdateOne, N.eqb_refl, Hd. reflexivity. }
  unfold readOne. fold (lookup i c1). rewrite L1.
  exists c1. split; [reflexivity|]. split; [exact L1|].
  intros j Hj. rewrite H1, lookup_partialUpdateOne. now destruct (N.eqb_spec j i).
Qed.

Lemma assertCreatorIsUser_run (c : Items) (i user : ObjectId) (d : Doc) :
  lookup i c = Some d ->
  assertCreatorIsUser i user c =
  if N.eqb (ItemDoc.creator (fields d)) user then (Ok tt, c)
  else (Throw (ItemCreatorNotMatchError user i), c).
Proof.
  intros Hd. unfold lookup in Hd. unfold assertCreatorIsUser. run. rewrite Hd.
  now destruct (N.eqb (ItemDoc.creator (fields d)) user).
Qed.

(** X9. The create-task route, on a collection whose identifiers are
    below the next one to hand out: with an empty title or an empty
    description it throws BadValuesError and stores nothing; otherwise it
    appends one item, owned by the user, with the given title and
    description and the status "in-progress" (a member of STATUS_TYPES),
    which is then read back under its identifier and listed last among
    the items of that creator. *)
Theorem createTask_outcomes :
  forall (c : Items) (user : ObjectId) (title description : string) (now : Date)
         (mine : list Doc),
    wf c ->
    getByCreator user c = (Ok mine, c) ->
    ((title = "" \/ description = "") ->
       Routes.createTask user title description now c = (Throw BadValuesError, c)) /\
    (title <> "" -> description <> "" ->
       exists (d : Doc) (c' : Items),
         Routes.createTask user title description now c = (Ok (Some d), c') /\
         docs c' = docs c ++ [d] /\
         fields d = ItemDoc.mk user title description (Some "in-progress") /\
         includes STATUS_TYPES "in-progress" = true /\
         lookup (_id d) c' = Some d /\
         getByCreator user c' = (Ok (mine ++ [d]), c')).
Proof.
  intros c user title description now mine Hwf Hmine.
  unfold getByCreator, readMany in Hmine. injection Hmine as Hmine.
  unfold Routes.createTask, assertValidItemDetails, create.
  split.
  - intros [-> | ->]; unfold bind; cbn [String.eqb orb]; [reflexivity|].
    now rewrite orb_true_r.
  - intros Ht Hd. apply String.eqb_neq in Ht, Hd.
    unfold bind at 1. rewrite Ht, Hd. cbn [orb]. unfold ret at 1.
    pose proof (wf_fresh c _ Hwf (N.le_refl _)) as Hn. unfold lookup in Hn.
    run.
    set (d := mkDoc (nextId c) now now _).
    assert (Hfd : find (byId (_id d)) (docs c ++ [d]) = Some d)
      by (apply (find_byId_at (docs c) [] d); exact Hn).
    change (byId (nextId c)) with (byId (S:=ItemDoc.t) (_id d)). rewrite Hfd.
    do 2 eexists. split; [reflexivity|]. cbn [docs].
    split; [reflexivity|]. split; [reflexivity|]. split; [reflexivity|].
    split; [exact Hfd|].
    unfold getByCreator, readMany. cbn [docs].
    rewrite filter_app, Hmine. cbn. now rewrite N.eqb_refl.
Qed.

Lemma createTask_outcomes_witness :
  Routes.createTask 1 "" "text" 10 empty = (Throw BadValuesError, empty) /\
  exists (d : Doc) (c' : Items),
    Routes.createTask 1 "title" "text" 10 empty = (Ok (Some d), c') /\
    fields d = ItemDoc.mk 1 "title" "text" (Some "in-progress") /\
    getByCreator 1 c' = (Ok ([] ++ [d]), c').
Proof.
  split.
  - apply (createTask_outcomes empty 1 "" "text" 10 []); [constructor | reflexivity|].
    now left.
  - destruct (createTask_outcomes empty 1 "title" "text" 10 [] ltac:(constructor)
                eq_refl) as [_ H].
    destruct (H ltac:(discriminate) ltac:(discriminate))
      as (d & c' & H1 & _ & H2 & _ & _ & H3).
    exists d, c'. split; [exact H1|]. split; [exact H2 | exact H3].
Defined.

(** X10. The update-task and delete-task routes change nothing for a
    user who is not the creator of the stored item: both throw
    ItemCreatorNotMatchError, whatever the other arguments. *)
Theorem tasks_only_by_creator :
  forall (c : Items) (user i : ObjectId) (d : Doc)
         (title description status : option string) (now : Date),
    lookup i c = Some d -> ItemDoc.creator (fields d) <> user ->
    Routes.updateTask user i title description status now c
      = (Throw (ItemCreatorNotMatchError user i), c) /\
    Routes.deleteTask user i c = (Throw (ItemCreatorNotMatchError user i), c) /\
    errorKind (ItemCreatorNotMatchError user i) = KNotAllowed.
Proof.
  intros c user i d title description status now Hd Hne.
  apply N.eqb_neq in Hne.
  unfold Routes.updateTask, Routes.deleteTask.
  unfold bind. rewrite (assertCreatorIsUser_run c i user d Hd), Hne.
  repeat split.
Qed.

Lemma tasks_only_by_creator_witness :
  let c := snd (Routes.createTask 1 "title" "text" 10 empty) in
  Routes.updateTask 2 0 (Some "mine") None None 20 c
    = (Throw (ItemCreatorNotMatchError 2 0), c) /\
  Routes.deleteTask 2 0 c = (Throw (ItemCreatorNotMatchError 2 0), c) /\
  errorKind (ItemCreatorNotMatchError 2 0) = KNotAllowed.
Proof.
  intros c.
  apply (tasks_only_by_creator c 2 0
           (mkDoc 0 10 10 (ItemDoc.mk 1 "title" "text" (Some "in-progress")))).
  - reflexivity.
  - discriminate.
Defined.

(** X11. The update-task route, asked by the creator of a stored item:
    with a non-empty status outside STATUS_TYPES it throws
    InvalidStatusError and changes nothing; with no status or one of
    STATUS_TYPES it stores each supplied value (title, description,
    status) in place of the stored one and keeps the stored value of each
    omitted one, keeps the creator, the identifier and the creation date,
    and touches no other item. *)
Theorem updateTask_by_creator :
  forall (c : Items) (user i : ObjectId) (d : Doc)
         (title description status : option string) (now : Date),
    lookup i c = Some d -> ItemDoc.creator (fields d) = user ->
    (forall s, status = Some s -> s <> "" -> includes STATUS_TYPES s = false ->
       Routes.updateTask user i title description status now c
       = (Throw (InvalidStatusError s), c)) /\
    ((forall s, status = Some s -> includes STATUS_TYPES s = true) ->
       exists (d' : Doc) (c' : Items),
         Routes.updateTask user i title description status now c
         = (Ok (Some d'), c') /\
         lookup i c' = Some d' /\
         ItemDoc.creator (fields d') = user /\
         (forall t, title = Some t -> ItemDoc.title (fields d') = t) /\
         (title = None -> ItemDoc.title (fields d') = ItemDoc.title (fields d)) /\
         (forall t, description = Some t -> ItemDoc.description (fields d') = t) /\
         (description = None ->
            ItemDoc.description (fields d') = ItemDoc.description (fields d)) /\
         (forall s, status = Some s -> ItemDoc.status (fields d') = Some s) /\
         (status = None -> ItemDoc.status (fields d') = ItemDoc.status (fields d)) /\
         _id d' = _id d /\ dateCreated d' = dateCreated d /\ dateUpdated d' = now /\
         (forall j, j <> i -> lookup j c' = lookup j c)).
Proof.
  intros c user i d title description status now Hd Hc.
  assert (Hpre : forall k : M ItemDoc.t (option Doc),
            (assertCreatorIsUser i user ;;; assertValidStatus status ;;; k) c =
            match assertValidStatus status c with
            | (Ok _, c') => k c'
            | (Throw e, c') => (Throw e, c')
            end).
  { intros k. unfold bind at 1.
    rewrite (assertCreatorIsUser_run c i user d Hd), Hc, N.eqb_refl. reflexivity. }
  unfold Routes.updateTask.
  split.
  - intros s -> Hs Hin. rewrite Hpre, assertValidStatus_outcomes.
    apply String.eqb_neq in Hs. now rewrite Hs, Hin.
  - intros Hok.
    assert (Hpass : assertValidStatus status c = (Ok tt, c)).
    { rewrite assertValidStatus_outcomes.
      destruct status as [s|]; [|reflexivity].
      rewrite (Hok s eq_refl). now destruct (String.eqb s ""). }
    destruct (update_run c i d title description status now Hd)
      as (c' & Hrun & Hl & Hframe).
    do 2 eexists.
    split; [rewrite Hpre, Hpass; exact Hrun|].
    split; [exact Hl|].
    repeat (split; [first [ reflexivity
                          | exact Hc
                          | intros ? ->; reflexivity
                          | intros ->; reflexivity ]|]).
    exact Hframe.
Qed.

(** The update-task route asked by creator 1: an invalid status, and a
    title, a description and a valid status. *)
Lemma updateTask_by_creator_witness :
  let c := snd (Routes.createTask 1 "title" "text" 10 empty) in
  Routes.updateTask 1 0 None None (Some "done") 20 c
    = (Throw (InvalidStatusError "done"), c) /\
  exists (d' : Doc) (c' : Items),
    Routes.updateTask 1 0 (Some "new title") (Some "new text") (Some "complete") 20 c
      = (Ok (Some d'), c') /\
    ItemDoc.title (fields d') = "new title" /\
    ItemDoc.description (fields d') = "new text" /\
    ItemDoc.status (fields d') = Some "complete" /\
    ItemDoc.creator (fields d') = 1%N.
Proof.
  intros c.
  pose (d := mkDoc 0 10 10 (ItemDoc.mk 1 "title" "text" (Some "in-progress"))).
  split.
  - apply (proj1 (updateTask_by_creator c 1 0 d None None (Some "done") 20
                    eq_refl eq_refl) "done" eq_refl); [discriminate | reflexivity].
  - destruct (updateTask_by_creator c 1 0 d (Some "new title") (Some "new text")
                (Some "complete") 20 eq_refl eq_refl) as [_ H].
    destruct H as (d' & c' & H1 & _ & Hc & Ht & _ & Hd & _ & Hs & _).
    { intros s [= <-]. reflexivity. }
    exists d', c'. split; [exact H1|]. split; [exact (Ht _ eq_refl)|].
    split; [exact (Hd _ eq_refl)|]. split; [exact (Hs _ eq_refl) | exact Hc].
Defined.

(** X12. When the creator deletes a stored item through the delete-task
    route, in a collection with distinct identifiers, no item is stored
    under that identifier afterwards and every other item is stored as
    before. *)
Theorem deleteTask_by_creator :
  forall (c : Items) (user i : ObjectId) (d : Doc),
    uniqueIds c -> lookup i c = Some d -> ItemDoc.creator (fields d) = user ->
    exists c',
      Routes.deleteTask user i c = (Ok tt, c') /\
      lookup i c' = None /\
      (forall j, j <> i -> lookup j c' = lookup j c) /\
      List.length (docs c) = Datatypes.S (List.length (docs c')).
Proof.
  intros c user i d Hu Hd Hc.
  unfold Routes.deleteTask, delete. unfold bind.
  rewrite (assertCreatorIsUser_run c i user d Hd), Hc, N.eqb_refl.
  exists (snd (deleteOne (byId i) c)). split; [reflexivity|].
  split; [|split].
  - rewrite lookup_deleteOne by exact Hu. now rewrite N.eqb_refl.
  - intros j Hj. rewrite lookup_deleteOne by exact Hu. now destruct (N.eqb_spec j i).
  - unfold deleteOne. cbn [snd docs]. unfold lookup in Hd. clear Hu.
    revert Hd. generalize (docs c). intros l.
    induction l as [|x l IH]; cbn; [discriminate|].
    destruct (byId i x); [reflexivity|]. intros H. cbn. now rewrite <- IH.
Qed.

Lemma deleteTask_by_creator_witness :
  let c := snd (Routes.createTask 1 "title" "text" 10 empty) in
  exists c',
    Routes.deleteTask 1 0 c = (Ok tt, c') /\
    lookup 0 c' = None /\
    (forall j, j <> 0%N -> lookup j c' = lookup j c) /\
    List.length (docs c) = Datatypes.S (List.length (docs c')).
Proof.
  intros c.
  apply (deleteTask_by_creator c 1 0
           (mkDoc 0 10 10 (ItemDoc.mk 1 "title" "text" (Some "in-progress")))).
  - repeat constructor. cbn. tauto.
  - reflexivity.
  - reflexivity.
Defined.

End MoreItemizingFacts.

(** ** More on tracking *)

Section MoreTrackingFacts.
Import TrackingConcept.

Lemma unique_by_id {S : Type} (l : list (BaseDoc S)) (g d : BaseDoc S) :
  NoDup (map (@_id S) l) -> In g l -> In d l -> _id g = _id d -> g = d.
Proof.
  induction l as [|x l IH]; cbn; [easy|].
  intros H Hg Hd E. apply NoDup_cons_iff in H. destruct H as [Hx Hl].
  destruct Hg as [<-|Hg], Hd as [<-|Hd]; trivial.
  - exfalso. apply Hx. rewrite E. now apply in_map.
  - exfalso. apply Hx. rewrite <- E. now apply in_map.
  - now apply IH.
Qed.

Lemma find_byId_map {S : Type} (i : ObjectId) (f : BaseDoc S -> BaseDoc S)
    (l : list (BaseDoc S)) :
  (forall d, _id (f d) = _id d) ->
  find (byId i) (map f l) = option_map f (find (byId i) l).
Proof.
  intros Hf. induction l as [|d l IH]; cbn; [reflexivity|].
  unfold byId at 1 3. rewrite Hf. now destruct (N.eqb (_id d) i).
Qed.

Lemma reclassify_id now (g : Doc) : _id (reclassify now g) = _id g.
Proof. unfold reclassify. now destruct (_ && _). Qed.

(** With distinct identifiers the loop of the sweep is a map over the
    stored goals. *)
Lemma forEach_sweep_docs (now : Date) (l : list Doc) :
  forall c : Goals,
    uniqueIds c ->
    forEach l (sweepBody now) c =
    (Ok tt,
     mkColl (map (fun d => if existsb (hits now (_id d)) l
                           then applyUpdate setPastDue now d else d) (docs c))
            (nextId c)).
Proof.
  induction l as [|g l IH]; intros c Hu.
  - cbn [forEach existsb]. unfold ret. now rewrite map_id, coll_eta.
  - cbn [forEach]. unfold bind, sweepBody at 1.
    destruct (due g <? now)%Z eqn:Edue.
    + unfold partialUpdateOne at 1.
      rewrite IH by (apply (uniqueIds_partialUpdateOne (byId (_id g)) setPastDue now c Hu)).
      cbn [docs nextId]. f_equal. f_equal.
      rewrite (updateFirst_byId_map (_id g) _ (docs c) Hu), map_map.
      apply map_ext. intros d. cbn [existsb]. unfold hits at 2. rewrite Edue, andb_true_r.
      unfold byId. rewrite (N.eqb_sym (_id g) (_id d)).
      destruct (N.eqb (_id d) (_id g)); cbn [orb]; [|reflexivity].
      now destruct (existsb _ l).
    + unfold ret at 1. rewrite IH by exact Hu. f_equal. f_equal.
      apply map_ext. intros d. cbn [existsb]. unfold hits at 2.
      now rewrite Edue, andb_false_r.
Qed.

Lemma sweep_run_unique (c : Goals) (now : Date) :
  uniqueIds c ->
  updateGoalStatuses now c =
  (Ok tt, mkColl (map (reclassify now) (docs c)) (nextId c)).
Proof.
  intros Hu.
  change (forEach (filter (byStatus "pending") (docs c)) (sweepBody now) c
          = (Ok tt, mkColl (map (reclassify now) (docs c)) (nextId c))).
  rewrite forEach_sweep_docs by exact Hu. f_equal. f_equal.
  apply map_ext_in. intros d Hd. unfold reclassify.
  destruct (byStatus "pending" d && (due d <? now)%Z) eqn:E.
  - replace (existsb _ _) with true; [reflexivity|]. symmetry.
    apply existsb_exists. exists d. apply andb_true_iff in E. destruct E as [E1 E2].
    split; [apply filter_In; now split|]. unfold hits. now rewrite N.eqb_refl, E2.
  - replace (existsb _ _) with false; [reflexivity|]. symmetry.
    apply not_true_is_false. intros H. apply existsb_exists in H.
    destruct H as [g [Hg Hh]]. apply filter_In in Hg. destruct Hg as [Hin Hp].
    unfold hits in Hh. apply andb_true_iff in Hh. destruct Hh as [Hid Hdue].
    apply N.eqb_eq in Hid.
    assert (g = d) by (apply (unique_by_id (docs c)); assumption). subst g.
    rewrite Hp, Hdue in E. discriminate.
Qed.

(** X13. In a collection with distinct identifiers the sweep returns
    normally and rewrites exactly the goals that are pending with a due
    date before the current time, setting their status to "past due" and
    their update time; every other goal (complete, past due, or pending
    and not yet due) is stored as before, no goal is added or removed,
    and no goal becomes pending. *)
Theorem updateGoalStatuses_rewrites_overdue_only :
  forall (c : Goals) (now : Date),
    uniqueIds c ->
    exists c',
      updateGoalStatuses now c = (Ok tt, c') /\
      docs c' = map (reclassify now) (docs c) /\ nextId c' = nextId c /\
      uniqueIds c' /\
      forall (i : ObjectId) (g : Doc),
        lookup i c = Some g ->
        (status g = "pending" -> (due g < now)%Z ->
           lookup i c' = Some (applyUpdate setPastDue now g)) /\
        (status g <> "pending" \/ (now <= due g)%Z -> lookup i c' = Some g) /\
        (forall g', lookup i c' = Some g' -> status g' = "pending" ->
                    g' = g /\ (now <= due g)%Z).
Proof.
  intros c now Hu. eexists. split; [now apply sweep_run_unique|].
  cbn [docs nextId]. split; [reflexivity|]. split; [reflexivity|].
  split.
  { unfold uniqueIds. cbn [docs]. rewrite map_map.
    erewrite map_ext; [exact Hu|]. intros d. apply reclassify_id. }
  intros i g Hg. unfold lookup in *. cbn [docs].
  assert (Hmap : find (byId i) (map (reclassify now) (docs c))
                 = option_map (reclassify now) (find (byId i) (docs c)))
    by (apply find_byId_map; apply reclassify_id).
  rewrite Hmap, Hg.
  cbn [option_map]. unfold reclassify, byStatus.
  split; [|split].
  - intros Hs Hd. rewrite Hs. apply Z.ltb_lt in Hd. now rewrite Hd.
  - intros [Hs|Hd].
    + apply String.eqb_neq in Hs. now rewrite Hs.
    + apply Z.ltb_ge in Hd. now rewrite Hd, andb_false_r.
  - intros g' [= <-] Hp.
    destruct (String.eqb (status g) "pending" && (due g <? now)%Z) eqn:E.
    + discriminate Hp.
    + split; [reflexivity|]. apply String.eqb_eq in Hp. rewrite Hp in E.
      cbn [andb] in E. now apply Z.ltb_ge.
Qed.

Lemma updateGoalStatuses_rewrites_overdue_only_witness :
  let c := snd (create 1 "run" 100 None 50 (snd (create 1 "walk" 300 None 50 empty))) in
  exists c',
    updateGoalStatuses 200 c = (Ok tt, c') /\
    option_map status (lookup 0 c') = Some "pending" /\
    option_map status (lookup 1 c') = Some "past due".
Proof.
  intros c.
  destruct (updateGoalStatuses_rewrites_overdue_only c 200) as (c' & H1 & H2 & _).
  { repeat constructor; cbn; intuition discriminate. }
  exists c'. split; [exact H1|]. unfold lookup. rewrite H2. split; reflexivity.
Defined.

(** X14. After a sweep, in a collection with distinct identifiers, the
    pending goals listed for an executor are the ones listed before
    without those due before the time of the sweep (each unchanged and
    in the same order); so no goal listed as pending is overdue. *)
Theorem getPending_after_sweep :
  forall (c : Goals) (now : Date) (executor : ObjectId) (pendingBefore : list Doc),
    uniqueIds c ->
    Routes.getPending executor c = (Ok pendingBefore, c) ->
    exists c',
      updateGoalStatuses now c = (Ok tt, c') /\
      Routes.getPending executor c'
        = (Ok (filter (fun g => negb (due g <? now)%Z) pendingBefore), c') /\
      forall g l, Routes.getPending executor c' = (Ok l, c') -> In g l ->
                  (now <= due g)%Z.
Proof.
  intros c now executor pendingBefore Hu Hp.
  unfold Routes.getPending, viewStatus, readMany in *. injection Hp as Hp.
  eexists. split; [now apply sweep_run_unique|]. cbn [docs].
  assert (E : filter (fun d : BaseDoc GoalDoc.t =>
                        N.eqb (GoalDoc.executor (fields d)) executor
                                     && String.eqb (status d) "pending")
                (map (reclassify now) (docs c))
              = filter (fun g => negb (due g <? now)%Z) pendingBefore).
  { rewrite <- Hp. clear Hp Hu. generalize (docs c). intros l.
    induction l as [|d l IH]; [reflexivity|].
    cbn [map filter]. rewrite IH. unfold reclassify, byStatus.
    destruct (String.eqb (status d) "pending") eqn:Es; cbn [andb].
    - destruct (due d <? now)%Z eqn:Ed.
      + unfold status at 1. cbn [applyUpdate fields setPastDue GoalDoc.status GoalDoc.executor].
        cbn [String.eqb Ascii.eqb Bool.eqb]. rewrite andb_false_r.
        rewrite andb_true_r. destruct (N.eqb _ executor); cbn [filter]; [|reflexivity].
        now rewrite Ed.
      + rewrite Es, andb_true_r. destruct (N.eqb _ executor); cbn [filter]; [|reflexivity].
        now rewrite Ed.
    - rewrite Es, andb_false_r. reflexivity. }
  split; [now rewrite E|].
  intros g l [= <-] Hin. rewrite E in Hin. apply filter_In in Hin.
  destruct Hin as [_ Hd]. apply negb_true_iff in Hd. now apply Z.ltb_ge.
Qed.

Lemma getPending_after_sweep_witness :
  let c := snd (create 1 "run" 100 None 50 (snd (create 1 "walk" 300 None 50 empty))) in
  exists c',
    updateGoalStatuses 200 c = (Ok tt, c') /\
    Routes.getPending 1 c'
      = (Ok [mkDoc 0 50 50 (GoalDoc.mk 1 "walk" None "pending" 300)], c').
Proof.
  intros c.
  destruct (getPending_after_sweep c 200 1
              [mkDoc 0 50 50 (GoalDoc.mk 1 "walk" None "pending" 300);
               mkDoc 1 50 50 (GoalDoc.mk 1 "run" None "pending" 100)])
    as (c' & H1 & H2 & _).
  - repeat constructor; cbn; intuition discriminate.
  - reflexivity.
  - exists c'. split; [exact H1 | exact H2].
Defined.

(** X15. In a collection with distinct identifiers, a second sweep at
    the same or an earlier time changes nothing. *)
Theorem updateGoalStatuses_idempotent :
  forall (c : Goals) (now earlier : Date),
    uniqueIds c -> (earlier <= now)%Z ->
    exists c',
      updateGoalStatuses now c = (Ok tt, c') /\
      updateGoalStatuses earlier c' = (Ok tt, c').
Proof.
  intros c now earlier Hu Hle. eexists. split; [now apply sweep_run_unique|].
  rewrite sweep_run_unique.
  - cbn [docs nextId]. f_equal. f_equal. rewrite map_map. apply map_ext.
    intros d. unfold reclassify.
    destruct (byStatus "pending" d) eqn:Es; destruct (due d <? now)%Z eqn:Ed;
      cbn [andb]; rewrite ?Es; cbn [andb]; try reflexivity.
    apply Z.ltb_ge in Ed.
    replace (due d <? earlier)%Z with false; [reflexivity|].
    symmetry. apply Z.ltb_ge. lia.
  - unfold uniqueIds. cbn [docs]. rewrite map_map.
    erewrite map_ext; [exact Hu|]. intros d. apply reclassify_id.
Qed.

Lemma updateGoalStatuses_idempotent_witness :
  let c := snd (create 1 "run" 100 None 50 empty) in
  exists c',
    updateGoalStatuses 200 c = (Ok tt, c') /\
    updateGoalStatuses 200 c' = (Ok tt, c').
Proof.
  intros c. apply (updateGoalStatuses_idempotent c 200 200).
  - repeat constructor. cbn. tauto.
  - lia.
Defined.

End MoreTrackingFacts.

(** ** More on goals, items and profiles through the routes *)

Section MoreRouteFacts.
Variable newDate : string -> option Date.

(** The run of edit on a stored goal. *)
Lemma edit_run (c : TrackingConcept.Goals) (i : ObjectId) (g : TrackingConcept.Doc)
    (title description status : option string) (due : option Date) (now : Date) :
  lookup i c = Some g ->
  let g' := mkDoc (_id g) (dateCreated g) now
              (GoalDoc.mk (GoalDoc.executor (fields g))
                 (orElse title (GoalDoc.title (fields g)))
                 (orElseOpt description (GoalDoc.description (fields g)))
                 (orElse status (GoalDoc.status (fields g)))
                 (orElse due (GoalDoc.due (fields g)))) in
  exists c',
    TrackingConcept.edit i title description status due now c = (Ok (Some g'), c') /\
    lookup i c' = Some g' /\
    (forall j, j <> i -> lookup j c' = lookup j c).
Proof.
  intros Hg g'. pose proof Hg as Hf. unfold lookup in Hf.
  unfold TrackingConcept.edit. unfold bind at 1. unfold readOne at 1.
  cbn [fst snd]. rewrite Hf.
  set (upd := fun g0 : GoalDoc.t => _).
  unfold bind.
  destruct (partialUpdateOne (byId i) upd now c) as [[[]|e] c1] eqn:E1;
    [|discriminate E1].
  assert (H1 : c1 = snd (partialUpdateOne (byId i) upd now c)) by now rewrite E1.
  assert (L1 : lookup i c1 = Some g').
  { rewrite H1, lookup_partialUpdateOne, N.eqb_refl, Hg. reflexivity. }
  unfold readOne. fold (lookup i c1). rewrite L1.
  exists c1. split; [reflexivity|]. split; [exact L1|].
  intros j Hj. rewrite H1, lookup_partialUpdateOne. now destruct (N.eqb_spec j i).
Qed.

(** X16. The update-goal route on a stored goal: for a user who is not
    its executor it throws GoalExecutorNotMatchError and changes nothing.
    For the executor it stores each supplied value (title, description,
    status) in place of the stored one and keeps the stored value of each
    omitted one; given a non-empty date string it stores the date the
    string denotes as the due date, or time 0 when the string denotes no
    date, and with no date string or an empty one it keeps the due date.
    The status is not recomputed from the new due date, and the
    executor, the identifier, the creation date and every other goal stay
    as they were. *)
Theorem updateGoal_by_executor_only :
  forall (c : TrackingConcept.Goals) (user i : ObjectId) (g : TrackingConcept.Doc)
         (title description status due : option string) (now : Date),
    lookup i c = Some g ->
    (GoalDoc.executor (fields g) <> user ->
       Routes.updateGoal newDate user i title description status due now c
       = (Throw (GoalExecutorNotMatchError user i), c)) /\
    (GoalDoc.executor (fields g) = user ->
       exists (g' : TrackingConcept.Doc) (c' : TrackingConcept.Goals),
         Routes.updateGoal newDate user i title description status due now c
         = (Ok (Some g'), c') /\
         lookup i c' = Some g' /\
         GoalDoc.executor (fields g') = user /\
         (forall t, title = Some t -> GoalDoc.title (fields g') = t) /\
         (title = None -> GoalDoc.title (fields g') = GoalDoc.title (fields g)) /\
         (forall t, description = Some t ->
                    GoalDoc.description (fields g') = Some t) /\
         (description = None ->
            GoalDoc.description (fields g') = GoalDoc.description (fields g)) /\
         (forall t, status = Some t -> GoalDoc.status (fields g') = t) /\
         (status = None -> GoalDoc.status (fields g') = GoalDoc.status (fields g)) /\
         (forall s t, due = Some s -> s <> "" -> newDate s = Some t ->
                      GoalDoc.due (fields g') = t) /\
         (forall s, due = Some s -> s <> "" -> newDate s = None ->
                    GoalDoc.due (fields g') = 0%Z) /\
         (due = None \/ due = Some "" ->
            GoalDoc.due (fields g') = GoalDoc.due (fields g)) /\
         _id g' = _id g /\ dateCreated g' = dateCreated g /\
         (forall j, j <> i -> lookup j c' = lookup j c)).
Proof.
  intros c user i g title description status due now Hg.
  pose proof Hg as Hf. unfold lookup in Hf.
  split.
  - intros Hne. apply N.eqb_neq in Hne.
    unfold Routes.updateGoal, TrackingConcept.assertExecutorIsUser.
    eval_with ltac:(rewrite ?Hf, ?Hne). reflexivity.
  - intros He.
    set (parsed := match due with
                   | Some s => if String.eqb s "" then GoalDoc.due (fields g)
                               else storedTime (newDate s)
                   | None => GoalDoc.due (fields g)
                   end).
    assert (Hpre : Routes.updateGoal newDate user i title description status due now c
                   = TrackingConcept.edit i title description status (Some parsed) now c).
    { unfold Routes.updateGoal, TrackingConcept.assertExecutorIsUser,
        TrackingConcept.viewOneGoal.
      unfold bind at 1. unfold bind at 1. unfold readOne at 1. cbn [fst snd].
      rewrite Hf, He, N.eqb_refl. cbn [negb]. unfold ret at 1.
      unfold bind at 1. unfold parsed, truthyString.
      destruct due as [s|]; [destruct (String.eqb s "")|]; cbn [negb];
        unfold bind, readOne, ret; cbn [fst snd option_map]; rewrite ?Hf;
        reflexivity. }
    destruct (edit_run c i g title description status (Some parsed) now Hg)
      as (c' & Hrun & Hl & Hframe).
    do 2 eexists. split; [rewrite Hpre; exact Hrun|]. split; [exact Hl|].
    split; [exact He|].
    do 6 (split; [first [intros ? ->; reflexivity | intros ->; reflexivity]|]).
    cbn [fields GoalDoc.due orElse].
    split; [|split; [|split; [|split; [reflexivity|split; [reflexivity|exact Hframe]]]]].
    + intros s t -> Hs Ht. unfold parsed. apply String.eqb_neq in Hs.
      now rewrite Hs, Ht.
    + intros s -> Hs Ht. unfold parsed. apply String.eqb_neq in Hs.
      now rewrite Hs, Ht.
    + intros [-> | ->]; reflexivity.
Qed.

(** X17. On an identifier under which nothing is stored, and for a user
    without a profile: the update of an item and of a profile throw the
    AssertionError of [assert], the edit of a goal throws NotFoundError,
    the item and goal routes throw NotFoundError and the profile read,
    update and delete routes ProfileDoesNotExistsError; the delete
    operations of the three concepts return normally.  None of them
    changes its collection. *)
Theorem operations_on_missing_records :
  forall (items : ItemizingConcept.Items) (goals : TrackingConcept.Goals)
         (profiles : ProfilingConcept.Profiles) (i j u user : ObjectId)
         (a b s due : option string) (dueDate : option Date) (now : Date),
    lookup i items = None ->
    lookup j goals = None ->
    find (ProfilingConcept.byUser u) (docs profiles) = None ->
    ItemizingConcept.update i a b s now items = (Throw AssertionError, items) /\
    ItemizingConcept.delete i items = (Ok tt, items) /\
    Routes.updateTask user i a b s now items = (Throw NotFoundError, items) /\
    Routes.deleteTask user i items = (Throw NotFoundError, items) /\
    TrackingConcept.edit j a b s dueDate now goals = (Throw NotFoundError, goals) /\
    TrackingConcept.delete j goals = (Ok tt, goals) /\
    Routes.updateGoal newDate user j a b s due now goals
      = (Throw NotFoundError, goals) /\
    ProfilingConcept.update u a b s now profiles = (Throw AssertionError, profiles) /\
    ProfilingConcept.delete u profiles = (Ok tt, profiles) /\
    Routes.getProfile u profiles = (Throw (ProfileDoesNotExistsError u), profiles) /\
    Routes.updateProfile u a b s now profiles
      = (Throw (ProfileDoesNotExistsError u), profiles) /\
    Routes.deleteProfile u profiles
      = (Throw (ProfileDoesNotExistsError u), profiles).
Proof.
  intros items goals profiles i j u user a b s due dueDate now Hi Hj Hu.
  unfold lookup in Hi, Hj.
  repeat split.
  - unfold ItemizingConcept.update. run. now rewrite Hi.
  - now apply deleteOne_none.
  - unfold Routes.updateTask, ItemizingConcept.assertCreatorIsUser. run. now rewrite Hi.
  - unfold Routes.deleteTask, ItemizingConcept.assertCreatorIsUser. run. now rewrite Hi.
  - unfold TrackingConcept.edit. run. now rewrite Hj.
  - now apply deleteOne_none.
  - unfold Routes.updateGoal, TrackingConcept.assertExecutorIsUser. run. now rewrite Hj.
  - unfold ProfilingConcept.update, ProfilingConcept.viewProfile. run. now rewrite Hu.
  - now apply deleteOne_none.
  - unfold Routes.getProfile, ProfilingConcept.assertProfileExists. run. now rewrite Hu.
  - unfold Routes.updateProfile, ProfilingConcept.assertProfileExists. run.
    now rewrite Hu.
  - unfold Routes.deleteProfile, ProfilingConcept.assertProfileExists. run.
    now rewrite Hu.
Qed.

End MoreRouteFacts.

(** The update-goal route on a goal of executor 1 that is past due,
    with a parser that knows one date string. *)
Lemma updateGoal_by_executor_only_witness :
  let parse := fun s => if String.eqb s "2030-01-01T00:00:00.000Z"
                        then Some 1893456000000%Z else None in
  let c := snd (TrackingConcept.create 1 "run" 100 None 150 empty) in
  Routes.updateGoal parse 2 0 None None None (Some "2030-01-01T00:00:00.000Z") 200 c
    = (Throw (GoalExecutorNotMatchError 2 0), c) /\
  (exists (g' : TrackingConcept.Doc) (c' : TrackingConcept.Goals),
     Routes.updateGoal parse 1 0 (Some "walk") (Some "slowly") None
       (Some "2030-01-01T00:00:00.000Z") 200 c = (Ok (Some g'), c') /\
     GoalDoc.title (fields g') = "walk" /\
     GoalDoc.description (fields g') = Some "slowly" /\
     GoalDoc.due (fields g') = 1893456000000%Z /\
     GoalDoc.status (fields g') = "past due") /\
  (exists (g' : TrackingConcept.Doc) (c' : TrackingConcept.Goals),
     Routes.updateGoal parse 1 0 None None (Some "complete") (Some "later") 200 c
       = (Ok (Some g'), c') /\
     GoalDoc.status (fields g') = "complete" /\
     GoalDoc.due (fields g') = 0%Z).
Proof.
  intros parse c.
  pose (g := mkDoc 0 150 150 (GoalDoc.mk 1 "run" None "past due" 100)).
  split; [|split].
  - apply (proj1 (updateGoal_by_executor_only parse c 2 0 g None None None
                    (Some "2030-01-01T00:00:00.000Z") 200 eq_refl)).
    discriminate.
  - destruct (proj2 (updateGoal_by_executor_only parse c 1 0 g (Some "walk")
                       (Some "slowly") None (Some "2030-01-01T00:00:00.000Z") 200
                       eq_refl) eq_refl)
      as (g' & c' & R & _ & _ & Ht & _ & Hd & _ & _ & Hs & Hdue & _).
    exists g', c'. split; [exact R|]. split; [exact (Ht _ eq_refl)|].
    split; [exact (Hd _ eq_refl)|].
    split; [apply (Hdue _ _ eq_refl); [discriminate | reflexivity] | exact (Hs eq_refl)].
  - destruct (proj2 (updateGoal_by_executor_only parse c 1 0 g None None
                       (Some "complete") (Some "later") 200 eq_refl) eq_refl)
      as (g' & c' & R & _ & _ & _ & _ & _ & _ & Hs & _ & _ & Hdue & _).
    exists g', c'. split; [exact R|]. split; [exact (Hs _ eq_refl)|].
    apply (Hdue _ eq_refl); [discriminate | reflexivity].
Defined.

Lemma operations_on_missing_records_witness :
  ItemizingConcept.update 0 None None None 10 empty = (Throw AssertionError, empty) /\
  TrackingConcept.edit 0 None None None None 10 empty = (Throw NotFoundError, empty) /\
  Routes.deleteProfile 1 empty = (Throw (ProfileDoesNotExistsError 1), empty).
Proof.
  destruct (operations_on_missing_records (fun _ => None) empty empty empty 0 0 1 1
              None None None None None 10 eq_refl eq_refl eq_refl)
    as (H1 & _ & _ & _ & H2 & _ & _ & _ & _ & _ & _ & H3).
  exact (conj H1 (conj H2 H3)).
Defined.

(** ** More on profiling *)

Section MoreProfilingFacts.
Import ProfilingConcept Routes.

(** X18. The create method of the profiling concept makes no existence
    check of its own: for a user who has a profile it stores a second
    profile and returns the older one, not the profile just created, and
    the user then has more than one profile. *)
Theorem create_over_existing_profile :
  forall (c : Profiles) (u : ObjectId) (p : Doc) (name : string)
         (contact bio : option string) (now : Date),
    find (byUser u) (docs c) = Some p ->
    exists c',
      create u name contact bio now c = (Ok (Some p), c') /\
      profilesOf u c' =
        profilesOf u c ++ [mkDoc (nextId c) now now (ProfileDoc.mk u name contact bio)] /\
      ~ atMostOneProfile c'.
Proof.
  intros c u p name contact bio now Hp.
  unfold create. run. rewrite (find_app_found _ _ _ _ Hp).
  eexists. split; [reflexivity|].
  assert (E : profilesOf u (mkColl (docs c ++ [mkDoc (nextId c) now now
                                      (ProfileDoc.mk u name contact bio)])
                                   (N.succ (nextId c)))
              = profilesOf u c ++ [mkDoc (nextId c) now now
                                     (ProfileDoc.mk u name contact bio)]).
  { unfold profilesOf. cbn [docs]. rewrite filter_app. cbn [filter].
    unfold byUser at 2. cbn [fields ProfileDoc.user]. now rewrite N.eqb_refl. }
  split; [exact E|].
  intros H. specialize (H u). rewrite E, List.length_app in H. cbn in H.
  assert (L : (1 <= List.length (profilesOf u c))%nat).
  { unfold profilesOf. apply find_some in Hp. destruct Hp as [Hin Hu].
    assert (Hf : In p (filter (byUser u) (docs c))) by (apply filter_In; now split).
    destruct (filter (byUser u) (docs c)); [contradiction | cbn; lia]. }
  lia.
Qed.

Lemma create_over_existing_profile_witness :
  let c := snd (createProfile 1 "Ann" None None 10 empty) in
  exists c',
    create 1 "Bob" None None 20 c
    = (Ok (Some (mkDoc 0 10 10 (ProfileDoc.mk 1 "Ann" None None))), c') /\
    profilesOf 1 c' =
      profilesOf 1 c ++ [mkDoc (nextId c) 20 20 (ProfileDoc.mk 1 "Bob" None None)] /\
    ~ atMostOneProfile c'.
Proof.
  intros c.
  apply (create_over_existing_profile c 1
           (mkDoc 0 10 10 (ProfileDoc.mk 1 "Ann" None None)) "Bob" None None 20).
  reflexivity.
Defined.

(** X19. For a user without a profile, through the routes: the profile
    created is the one read back; after an update the profile read back
    carries each supplied value (name, contact, bio) and the stored value
    of each omitted one, the same user and the same identifier; and after the delete the
    stored profiles are those before the create and reading the profile
    throws ProfileDoesNotExistsError. *)
Theorem profile_create_update_delete :
  forall (c : Profiles) (u : ObjectId) (name : string) (contact bio : option string)
         (name' contact' bio' : option string) (now now' : Date),
    find (byUser u) (docs c) = None ->
    exists (p p' : Doc) (c1 c2 c3 : Profiles),
      createProfile u name contact bio now c = (Ok (Some p), c1) /\
      getProfile u c1 = (Ok (Some p), c1) /\
      fields p = ProfileDoc.mk u name contact bio /\
      updateProfile u name' contact' bio' now' c1 = (Ok (Some p'), c2) /\
      getProfile u c2 = (Ok (Some p'), c2) /\
      ProfileDoc.user (fields p') = u /\
      (forall n, name' = Some n -> ProfileDoc.name (fields p') = n) /\
      (name' = None -> ProfileDoc.name (fields p') = name) /\
      (forall x, contact' = Some x -> ProfileDoc.contact (fields p') = Some x) /\
      (contact' = None -> ProfileDoc.contact (fields p') = contact) /\
      (forall x, bio' = Some x -> ProfileDoc.bio (fields p') = Some x) /\
      (bio' = None -> ProfileDoc.bio (fields p') = bio) /\
      _id p' = _id p /\ dateCreated p' = dateCreated p /\
      deleteProfile u c2 = (Ok tt, c3) /\
      docs c3 = docs c /\
      getProfile u c3 = (Throw (ProfileDoesNotExistsError u), c3).
Proof.
  intros c u name contact bio name' contact' bio' now now' Hnone.
  set (p := mkDoc (nextId c) now now (ProfileDoc.mk u name contact bio)).
  set (p' := mkDoc (nextId c) now now'
               (ProfileDoc.mk u (orElse name' name) (orElseOpt contact' contact)
                              (orElseOpt bio' bio))).
  assert (Pp : byUser u p = true) by apply N.eqb_refl.
  assert (Pp' : byUser u p' = true) by apply N.eqb_refl.
  assert (F1 : find (byUser u) (docs c ++ [p]) = Some p).
  { rewrite find_app_none by exact Hnone. cbn [find]. now rewrite Pp. }
  assert (F2 : find (byUser u) (docs c ++ [p']) = Some p').
  { rewrite find_app_none by exact Hnone. cbn [find]. now rewrite Pp'. }
  exists p, p', (mkColl (docs c ++ [p]) (N.succ (nextId c))),
         (mkColl (docs c ++ [p']) (N.succ (nextId c))),
         (mkColl (docs c) (N.succ (nextId c))).
  split.
  { unfold createProfile, assertProfileDoesNotExist, create. run.
    rewrite Hnone. cbv beta iota. cbn [docs nextId]. fold p. now rewrite F1. }
  split.
  { unfold getProfile, assertProfileExists, viewProfile. run.
    rewrite F1. cbv beta iota. cbn [docs]. now rewrite F1. }
  split; [reflexivity|].
  split.
  { unfold updateProfile, assertProfileExists, update, viewProfile. run.
    rewrite F1. cbv beta iota. cbn [docs nextId]. rewrite F1.
    cbv beta iota. cbn [docs nextId fst snd].
    rewrite updateFirst_app_none by exact Hnone. cbn [updateFirst]. rewrite Pp.
    change (applyUpdate _ now' p) with p'. now rewrite F2. }
  split.
  { unfold getProfile, assertProfileExists, viewProfile. run.
    rewrite F2. cbv beta iota. cbn [docs]. now rewrite F2. }
  split; [reflexivity|].
  do 6 (split; [first [intros ? ->; reflexivity | intros ->; reflexivity]|]).
  split; [reflexivity|]. split; [reflexivity|].
  split.
  { unfold deleteProfile, assertProfileExists, delete. run.
    rewrite F2. cbv beta iota. cbn [docs nextId].
    rewrite removeFirst_app_none by exact Hnone. cbn [removeFirst]. rewrite Pp'.
    now rewrite app_nil_r. }
  split; [reflexivity|].
  unfold getProfile, assertProfileExists. run. now rewrite Hnone.
Qed.

(** The scenario for user 1: created as "Ann", renamed "Anna" with a
    contact, then deleted. *)
Lemma profile_create_update_delete_witness :
  exists (p p' : Doc) (c1 c2 c3 : Profiles),
    createProfile 1 "Ann" None (Some "hello") 10 empty = (Ok (Some p), c1) /\
    updateProfile 1 (Some "Anna") (Some "ann@mail") None 20 c1 = (Ok (Some p'), c2) /\
    ProfileDoc.name (fields p') = "Anna" /\
    ProfileDoc.contact (fields p') = Some "ann@mail" /\
    ProfileDoc.bio (fields p') = Some "hello" /\
    deleteProfile 1 c2 = (Ok tt, c3) /\
    getProfile 1 c3 = (Throw (ProfileDoesNotExistsError 1), c3).
Proof.
  destruct (profile_create_update_delete empty 1 "Ann" None (Some "hello")
              (Some "Anna") (Some "ann@mail") None 10 20 eq_refl)
    as (p & p' & c1 & c2 & c3 & H1 & _ & _ & H2 & _ & _ & Hn & _ & Hc & _ & _ & Hb
        & _ & _ & H4 & _ & H5).
  exists p, p', c1, c2, c3.
  split; [exact H1|]. split; [exact H2|]. split; [exact (Hn _ eq_refl)|].
  split; [exact (Hc _ eq_refl)|]. split; [exact (Hb eq_refl)|].
  split; [exact H4 | exact H5].
Defined.

End MoreProfilingFacts.

(** ** More on sent messages *)

Section MoreSentFacts.
Import MessagingConcept.

Lemma In_removeFirst {S : Type} (f : Filter S) (l : list (BaseDoc S)) (d : BaseDoc S) :
  In d (removeFirst f l) -> In d l.
Proof.
  induction l as [|x l IH]; cbn; [easy|].
  destruct (f x); cbn; [now right|]. intros [->|H]; [now left | right; auto].
Qed.

(** X20. deleteSent, called by the sender on a sent message in a
    collection with distinct identifiers where no other record carries
    the same receivedMessageID, deletes the sent record and nothing else:
    every other message, the linked received copy included, is stored as
    before. *)
Theorem deleteSent_deletes_sent_record_only :
  forall (c : Messages) (user i r : ObjectId) (s : Doc),
    uniqueIds c ->
    lookup i c = Some s -> from s = user -> receivedMessageID s = Some r ->
    (forall d, In d (docs c) -> receivedMessageID d = Some r -> _id d = i) ->
    exists c',
      deleteSent user i c = (Ok tt, c') /\
      lookup i c' = None /\
      (forall j, j <> i -> lookup j c' = lookup j c) /\
      docs c' = removeFirst (byId i) (docs c).
Proof.
  intros c user i r s Hu Hs Hfrom Hr Honly.
  pose proof Hs as Hf. unfold lookup in Hf.
  assert (Hgone : find (byId i) (removeFirst (byId i) (docs c)) = None)
    by (now apply find_byId_removeFirst_same).
  assert (Hno : find (byReceivedMessageID r) (removeFirst (byId i) (docs c)) = None).
  { apply find_none_iff. intros d Hd. unfold byReceivedMessageID.
    destruct (receivedMessageID d) as [y|] eqn:Ey; [|reflexivity].
    apply N.eqb_neq. intros ->.
    pose proof (Honly d (In_removeFirst _ _ _ Hd) Ey) as Hid.
    rewrite find_none_iff in Hgone. specialize (Hgone d Hd).
    unfold byId in Hgone. apply N.eqb_neq in Hgone. contradiction. }
  unfold deleteSent, assertUserIsSender.
  unfold bind, readOne, ret, throw, deleteOne.
  repeat (cbv beta iota; rewrite ?Hf, ?Hfrom, ?N.eqb_refl, ?Hr; cbn [negb andb fst snd docs nextId]).
  rewrite (removeFirst_none _ _ Hno).
  eexists. split; [reflexivity|]. unfold lookup. cbn [docs].
  split; [exact Hgone|]. split; [|reflexivity].
  intros j Hj. now apply find_byId_removeFirst_other.
Qed.

Lemma deleteSent_deletes_sent_record_only_witness :
  exists c',
    deleteSent 1 0 afterSend = (Ok tt, c') /\
    lookup 0 c' = None /\
    (forall j, j <> 0%N -> lookup j c' = lookup j afterSend) /\
    docs c' = removeFirst (byId 0) (docs afterSend).
Proof.
  apply (deleteSent_deletes_sent_record_only afterSend 1 0 1 sentCopy).
  - repeat constructor; cbn; intuition discriminate.
  - reflexivity.
  - reflexivity.
  - reflexivity.
  - intros d [<-|[<-|[]]]; [reflexivity | discriminate].
Defined.



(** X22. The send method of the concept applies to any stored message:
    it returns normally and stores one more record each time it is
    called.  Called twice on the same message, with identifiers below the
    next one to hand out, it leaves two received copies that both refer
    to the message, while the message refers to the second copy only. *)
Theorem send_twice_duplicates_received_copy :
  forall (c : Messages) (i from' to' : ObjectId) (m : Doc) (now1 now2 : Date),
    wf c -> lookup i c = Some m ->
    exists (s1 s2 r1 r2 : Doc) (c1 c2 : Messages),
      send i from' to' now1 c = (Ok (Some s1), c1) /\
      send i from' to' now2 c1 = (Ok (Some s2), c2) /\
      List.length (docs c2) = Datatypes.S (Datatypes.S (List.length (docs c))) /\
      lookup (nextId c) c2 = Some r1 /\ lookup (N.succ (nextId c)) c2 = Some r2 /\
      sentMessageID r1 = Some i /\ sentMessageID r2 = Some i /\
      received r1 = Some true /\ received r2 = Some true /\
      message r1 = message m /\ message r2 = message m /\
      lookup i c2 = Some s2 /\ receivedMessageID s2 = Some (_id r2) /\
      _id r1 <> _id r2.
Proof.
  intros c i from' to' m now1 now2 Hwf Hm.
  assert (Hlt : (i < nextId c)%N).
  { unfold lookup in Hm. apply find_some in Hm. destruct Hm as [Hin Hid].
    unfold wf in Hwf. rewrite Forall_forall in Hwf. specialize (Hwf m Hin).
    unfold byId in Hid. apply N.eqb_eq in Hid. lia. }
  pose proof Hm as Hf. unfold lookup in Hf.
  pose proof (wf_fresh c _ Hwf (N.le_refl _)) as Hn. unfold lookup in Hn.
  pose proof (wf_fresh c (N.succ (nextId c)) Hwf ltac:(lia)) as Hn'.
  unfold lookup in Hn'.
  set (r1 := mkDoc (nextId c) now1 now1
               (MessageDoc.mk from' to' (message m) (attachment m)
                  None None None None None (Some true) (Some now1) (Some i))).
  set (r2 := mkDoc (N.succ (nextId c)) now2 now2
               (MessageDoc.mk from' to' (message m) (attachment m)
                  None None None None None (Some true) (Some now2) (Some i))).
  (* the first send *)
  destruct (send_run c i from' to' m now1 Hm)
    as (s1 & c1 & Hrun1 & Hs1 & _ & _ & _ & Hmsg1 & Hatt1 & _ & _ & _ & _ & _ & _ & Hnext1 & Hlen1).
  assert (Hc1 : c1 = snd (send i from' to' now1 c)) by now rewrite Hrun1.
  assert (Hr1 : lookup (nextId c) c1 = Some r1).
  { rewrite Hc1. unfold send. unfold bind at 1. unfold readOne at 1. cbn [fst snd].
    rewrite Hf. unfold bind at 1. unfold createOne at 1. cbn [fst snd].
    unfold bind. set (upd := fun m0 : MessageDoc.t => _).
    destruct (partialUpdateOne (byId i) upd now1 _) as [[[]|e] c1'] eqn:E1;
      [|discriminate E1].
    cbn [snd readOne].
    assert (H1 : c1' = snd (partialUpdateOne (byId i) upd now1
                              (mkColl (docs c ++ [r1]) (N.succ (nextId c)))))
      by (fold r1 in E1; now rewrite E1).
    unfold readOne. cbn [snd]. rewrite H1, lookup_partialUpdateOne.
    destruct (N.eqb_spec (nextId c) i); [lia|].
    unfold lookup. cbn [docs]. apply (find_byId_at (docs c) [] r1). exact Hn. }
  (* the second send *)
  destruct (send_run c1 i from' to' s1 now2 Hs1)
    as (s2 & c2 & Hrun2 & Hs2 & _ & _ & _ & Hmsg2 & Hatt2 & _ & _ & _ & _ & Hrec2
        & Hframe2 & _ & Hlen2).
  assert (Hc2 : c2 = snd (send i from' to' now2 c1)) by now rewrite Hrun2.
  assert (Hr2 : lookup (N.succ (nextId c)) c2 = Some r2).
  { rewrite Hc2. pose proof Hs1 as Hf1. unfold lookup in Hf1.
    unfold send. unfold bind at 1. unfold readOne at 1. cbn [fst snd].
    rewrite Hf1. unfold bind at 1. unfold createOne at 1. cbn [fst snd].
    unfold bind. set (upd := fun m0 : MessageDoc.t => _).
    destruct (partialUpdateOne (byId i) upd now2 _) as [[[]|e] c2'] eqn:E2;
      [|discriminate E2].
    unfold readOne. cbn [snd].
    assert (H2 : c2' = snd (partialUpdateOne (byId i) upd now2
                   (mkColl (docs c1 ++ [mkDoc (nextId c1) now2 now2
                      (MessageDoc.mk from' to' (message s1) (attachment s1)
                         None None None None None (Some true) (Some now2) (Some i))])
                      (N.succ (nextId c1)))))
      by now rewrite E2.
    rewrite H2, lookup_partialUpdateOne.
    destruct (N.eqb_spec (N.succ (nextId c)) i); [lia|].
    unfold lookup. cbn [docs]. rewrite Hnext1, Hmsg1, Hatt1. fold r2.
    apply (find_byId_at (docs c1) [] r2).
    (* no record of c1 has the next identifier *)
    assert (Hwf1 : wf c1).
    { rewrite Hc1. unfold send. unfold bind at 1. unfold readOne at 1.
      cbn [fst snd]. rewrite Hf.
      unfold bind at 1.
      pose proof (wf_createOne
                    (MessageDoc.mk from' to' (message m) (attachment m)
                       None None None None None (Some true) (Some now1) (Some i))
                    now1 c Hwf) as W.
      destruct (createOne _ now1 c) as [[rid|e] c0] eqn:E0; [|discriminate E0].
      cbn [snd] in W. unfold bind.
      set (upd1 := fun m0 : MessageDoc.t => _).
      pose proof (wf_partialUpdateOne (byId i) upd1 now1 c0 W) as W1.
      destruct (partialUpdateOne (byId i) upd1 now1 c0) as [[[]|e] c0'] eqn:E0';
        [|discriminate E0'].
      cbn [snd] in W1 |- *. exact W1. }
    pose proof (wf_fresh c1 (nextId c1) Hwf1 (N.le_refl _)) as Hfresh.
    unfold lookup in Hfresh. rewrite Hnext1 in Hfresh. exact Hfresh. }
  exists s1, s2, r1, r2, c1, c2.
  split; [exact Hrun1|]. split; [exact Hrun2|].
  split; [rewrite Hlen2, Hlen1; reflexivity|].
  split.
  { rewrite Hframe2; [exact Hr1 | lia | rewrite Hnext1; lia]. }
  split; [exact Hr2|].
  repeat (split; [reflexivity|]).
  split; [exact Hs2|]. split; [rewrite Hrec2, Hnext1; reflexivity|].
  cbn. lia.
Qed.

Lemma send_twice_duplicates_received_copy_witness :
  let c := snd (Routes.writeMessage 1 2 "hi" 10 empty) in
  exists (s1 s2 r1 r2 : Doc) (c1 c2 : Messages),
    send 0 1 2 20 c = (Ok (Some s1), c1) /\
    send 0 1 2 30 c1 = (Ok (Some s2), c2) /\
    List.length (docs c2) = 3%nat /\
    lookup 1 c2 = Some r1 /\ lookup 2 c2 = Some r2 /\
    sentMessageID r1 = Some 0%N /\ sentMessageID r2 = Some 0%N /\
    receivedMessageID s2 = Some (_id r2).
Proof.
  intros c.
  destruct (send_twice_duplicates_received_copy c 0 1 2
              (mkDoc 0 10 10 (MessageDoc.mk 1 2 "hi" None (Some true) (Some 10%Z)
                                            None None None None None None))
              20 30)
    as (s1 & s2 & r1 & r2 & c1 & c2 & H1 & H2 & H3 & H4 & H5 & H6 & H7 & _ & _ & _ & _
        & _ & H8 & _).
  - repeat constructor.
  - reflexivity.
  - exists s1, s2, r1, r2, c1, c2.
    repeat (split; [assumption|]). exact H8.
Defined.

End MoreSentFacts.

(** ** Goals as listed by status *)

Section GoalListFacts.
Variable newDate : string -> option Date.

(** X23. The create-goal route, on a collection whose identifiers are
    below the next one to hand out, appends one goal of the executor,
    which is then read back under its identifier and listed last among
    the executor's goals and in exactly one of the executor's status
    lists.  When the due string denotes a date, that date is stored and
    the goal is "past due" and in the past-due list if the date is before
    the current time, "pending" and in the pending list otherwise.  When
    the due string denotes no date, or is missing, the goal is "pending",
    in the pending list, and time 0 is stored as its due date. *)
Theorem createGoal_listed_by_status :
  forall (c : TrackingConcept.Goals) (executor : ObjectId) (title : string)
         (due : option string) (description : option string) (now : Date)
         (all pending pastDue : list TrackingConcept.Doc),
    wf c ->
    TrackingConcept.viewGoals executor c = (Ok all, c) ->
    Routes.getPending executor c = (Ok pending, c) ->
    Routes.getPastDue executor c = (Ok pastDue, c) ->
    exists (g : TrackingConcept.Doc) (c' : TrackingConcept.Goals),
      Routes.createGoal newDate executor title due description now c
        = (Ok (Some g), c') /\
      docs c' = docs c ++ [g] /\
      lookup (_id g) c' = Some g /\
      GoalDoc.executor (fields g) = executor /\
      GoalDoc.title (fields g) = title /\
      GoalDoc.description (fields g) = description /\
      TrackingConcept.viewGoals executor c' = (Ok (all ++ [g]), c') /\
      (forall s d, due = Some s -> newDate s = Some d -> (d < now)%Z ->
         GoalDoc.due (fields g) = d /\ GoalDoc.status (fields g) = "past due" /\
         Routes.getPastDue executor c' = (Ok (pastDue ++ [g]), c') /\
         Routes.getPending executor c' = (Ok pending, c')) /\
      (forall s d, due = Some s -> newDate s = Some d -> (now <= d)%Z ->
         GoalDoc.due (fields g) = d /\ GoalDoc.status (fields g) = "pending" /\
         Routes.getPending executor c' = (Ok (pending ++ [g]), c') /\
         Routes.getPastDue executor c' = (Ok pastDue, c')) /\
      (due = None \/ (exists s, due = Some s /\ newDate s = None) ->
         GoalDoc.due (fields g) = 0%Z /\ GoalDoc.status (fields g) = "pending" /\
         Routes.getPending executor c' = (Ok (pending ++ [g]), c') /\
         Routes.getPastDue executor c' = (Ok pastDue, c')).
Proof.
  intros c executor title due description now all pending pastDue Hwf Ha Hp Hq.
  unfold TrackingConcept.viewGoals, Routes.getPending, Routes.getPastDue,
    TrackingConcept.viewStatus, readMany in *.
  injection Ha as Ha. injection Hp as Hp. injection Hq as Hq.
  pose proof (wf_fresh c _ Hwf (N.le_refl _)) as Hn. unfold lookup in Hn.
  (* the goal stored, by the date handed to create *)
  set (parsed := match due with Some s => newDate s | None => None end).
  set (g := mkDoc (nextId c) now now
              (GoalDoc.mk executor title description
                 match parsed with
                 | Some d => if (d <? now)%Z then "past due" else "pending"
                 | None => "pending"
                 end
                 (storedTime parsed))).
  assert (Hg : find (byId (_id g)) (docs c ++ [g]) = Some g)
    by (apply (find_byId_at (docs c) [] g); exact Hn).
  assert (Hrun : Routes.createGoal newDate executor title due description now c
                 = (Ok (Some g), mkColl (docs c ++ [g]) (N.succ (nextId c)))).
  { unfold Routes.createGoal. fold parsed. unfold g.
    destruct parsed as [d|]; cbn [storedTime];
      [unfold TrackingConcept.create | unfold TrackingConcept.createOnInvalidDate];
      run; cbn [storedTime];
      match goal with
      | |- (Ok (find _ (docs c ++ [?x])), _) = _ =>
          change (byId (nextId c)) with (byId (S:=GoalDoc.t) (_id x));
          rewrite (find_byId_at (docs c) [] x Hn)
      end; reflexivity. }
  exists g. eexists. split; [exact Hrun|]. cbn [docs].
  split; [reflexivity|]. split; [exact Hg|].
  do 3 (split; [reflexivity|]).
  rewrite !filter_app, Ha, Hp, Hq. cbn [filter].
  unfold TrackingConcept.status. cbn [fields g GoalDoc.executor GoalDoc.status GoalDoc.due].
  rewrite N.eqb_refl. cbn [andb].
  split; [reflexivity|].
  split; [|split].
  - intros s d Hs Hd Hlt. unfold parsed. rewrite Hs, Hd. cbn [storedTime].
    apply Z.ltb_lt in Hlt. rewrite Hlt. cbn. now rewrite !app_nil_r.
  - intros s d Hs Hd Hle. unfold parsed. rewrite Hs, Hd. cbn [storedTime].
    apply Z.ltb_ge in Hle. rewrite Hle. cbn. now rewrite !app_nil_r.
  - intros H.
    assert (Hnone : parsed = None).
    { unfold parsed. destruct H as [-> | [s [-> Hs]]]; [reflexivity | exact Hs]. }
    rewrite Hnone. cbn. now rewrite !app_nil_r.
Qed.

End GoalListFacts.

(** The create-goal route with a parser that knows one date string: on
    that string before and after the date, on a string that denotes no
    date, and without a due string. *)
Lemma createGoal_listed_by_status_witness :
  let parse := fun s => if String.eqb s "2030-01-01T00:00:00.000Z"
                        then Some 1893456000000%Z else None in
  (exists (g : TrackingConcept.Doc) (c' : TrackingConcept.Goals),
     Routes.createGoal parse 1 "run" (Some "2030-01-01T00:00:00.000Z") None 50 empty
       = (Ok (Some g), c') /\
     GoalDoc.due (fields g) = 1893456000000%Z /\
     GoalDoc.status (fields g) = "pending" /\
     Routes.getPending 1 c' = (Ok ([] ++ [g]), c') /\
     Routes.getPastDue 1 c' = (Ok [], c')) /\
  (exists (g : TrackingConcept.Doc) (c' : TrackingConcept.Goals),
     Routes.createGoal parse 1 "run" (Some "2030-01-01T00:00:00.000Z") None
       1900000000000 empty = (Ok (Some g), c') /\
     GoalDoc.status (fields g) = "past due" /\
     Routes.getPastDue 1 c' = (Ok ([] ++ [g]), c')) /\
  (exists (g : TrackingConcept.Doc) (c' : TrackingConcept.Goals),
     Routes.createGoal parse 1 "run" (Some "soon") None 50 empty
       = (Ok (Some g), c') /\
     GoalDoc.due (fields g) = 0%Z /\ GoalDoc.status (fields g) = "pending" /\
     Routes.getPending 1 c' = (Ok ([] ++ [g]), c')) /\
  (exists (g : TrackingConcept.Doc) (c' : TrackingConcept.Goals),
     Routes.createGoal parse 1 "run" None None 50 empty = (Ok (Some g), c') /\
     GoalDoc.due (fields g) = 0%Z /\ GoalDoc.status (fields g) = "pending").
Proof.
  intros parse.
  split; [|split; [|split]].
  - destruct (createGoal_listed_by_status parse empty 1 "run"
                (Some "2030-01-01T00:00:00.000Z") None 50
                [] [] [] ltac:(constructor) eq_refl eq_refl eq_refl)
      as (g & c' & H1 & _ & _ & _ & _ & _ & _ & _ & H2 & _).
    destruct (H2 _ _ eq_refl eq_refl ltac:(lia)) as (Hd & Hs & Hp & Hq).
    exists g, c'. repeat (split; [assumption|]). assumption.
  - destruct (createGoal_listed_by_status parse empty 1 "run"
                (Some "2030-01-01T00:00:00.000Z") None 1900000000000
                [] [] [] ltac:(constructor) eq_refl eq_refl eq_refl)
      as (g & c' & H1 & _ & _ & _ & _ & _ & _ & H2 & _).
    destruct (H2 _ _ eq_refl eq_refl ltac:(lia)) as (_ & Hs & Hq & _).
    exists g, c'. repeat (split; [assumption|]). assumption.
  - destruct (createGoal_listed_by_status parse empty 1 "run" (Some "soon") None 50
                [] [] [] ltac:(constructor) eq_refl eq_refl eq_refl)
      as (g & c' & H1 & _ & _ & _ & _ & _ & _ & _ & _ & H2).
    destruct H2 as (Hd & Hs & Hp & _).
    { right. exists "soon". split; reflexivity. }
    exists g, c'. repeat (split; [assumption|]). assumption.
  - destruct (createGoal_listed_by_status parse empty 1 "run" None None 50
                [] [] [] ltac:(constructor) eq_refl eq_refl eq_refl)
      as (g & c' & H1 & _ & _ & _ & _ & _ & _ & _ & _ & H2).
    destruct H2 as (Hd & Hs & _); [now left|].
    exists g, c'. repeat (split; [assumption|]). assumption.
Defined.
